(** * Revision history and rollback of workloads

    A shallow embedding of [pkg/history.go] and [pkg/rollback.go]: the
    history viewers and the rollbackers of Deployments, DaemonSets and
    StatefulSets.  Pure Go functions are Rocq functions; calls to the API
    server go through a small monad that records each call; the packages
    the two files import (client-go, apimachinery, sort, text/tabwriter,
    the controllers' helpers) are interfaces whose operations are taken as
    given. *)

From stdpp Require Import base gmap strings list sorting pretty.

Open Scope Z_scope.

(** ** Go values *)

(** A Go [error] is identified with its message, a [[]byte] with the
    string of its bytes. *)
Abbreviation error := string.
Abbreviation Bytes := string.

(** The pair [(T, error)] a fallible Go function returns. *)
Inductive Result (A : Type) : Type :=
  | Ok (a : A)
  | Err (e : error).
Arguments Ok {A} a.
Arguments Err {A} e.

(** The verbs [%d] and [%v] of [fmt] at an [int64]. *)
Definition fmt_d (n : Z) : string := pretty n.

(** ** Data model *)

Record ObjectMeta : Type := mkObjectMeta {
  Name : string;
  Namespace : string;
  Annotations : gmap string string
}.

(** [v1.PodTemplateSpec]: its annotations and the pod specification, which
    the code never looks into.  A nil annotation map reads as the empty
    one. *)
Record PodTemplateSpec : Type := mkPodTemplateSpec {
  Template_Annotations : gmap string string;
  Template_Spec : string
}.

Record LabelSelector : Type := mkLabelSelector {
  MatchLabels : gmap string string;
  MatchExpressions : list string
}.

(** [appsv1beta1.ControllerRevision], the revision snapshot. *)
Record ControllerRevision : Type := mkControllerRevision {
  ObjectMeta_of_revision : ObjectMeta;
  Data_Raw : Bytes;
  Revision : Z
}.

Record DaemonSet : Type := mkDaemonSet {
  ObjectMeta_of_ds : ObjectMeta;
  Selector_of_ds : LabelSelector;
  Template_of_ds : PodTemplateSpec
}.

Record StatefulSet : Type := mkStatefulSet {
  ObjectMeta_of_sts : ObjectMeta;
  Selector_of_sts : LabelSelector;
  Template_of_sts : PodTemplateSpec
}.

Record Deployment : Type := mkDeployment {
  ObjectMeta_of_deployment : ObjectMeta;
  Paused : bool;
  Template_of_deployment : PodTemplateSpec
}.

Record ReplicaSet : Type := mkReplicaSet {
  ObjectMeta_of_rs : ObjectMeta;
  Template_of_rs : PodTemplateSpec
}.

(** [api.Event], as far as the rollback watch reads it. *)
Record Event : Type := mkEvent {
  Reason : string;
  Message : string
}.

(** A [runtime.Object] handed to a rollbacker. *)
Inductive Object : Type :=
  | DeploymentObject (d : Deployment)
  | DaemonSetObject (ds : DaemonSet)
  | StatefulSetObject (sts : StatefulSet)
  | ReplicaSetObject (rs : ReplicaSet)
  | OtherObject (description : string).

(** ** [sort.Sort] over [historiesByRevision] *)

(** [Less(i, j)] of [historiesByRevision]. *)
Definition Less (a b : ControllerRevision) : bool :=
  bool_decide (Revision a < Revision b).

(** The order a slice is in once no [Less] inversion is left. *)
Definition byRevision (a b : ControllerRevision) : Prop :=
  Revision a ≤ Revision b.

(** [sort.Sort] is not part of the repository and is not stable; what its
    documentation promises is a rearrangement of the slice in which the
    elements are in increasing order as [Less] determines. *)
Class Sorter : Type := mkSorter {
  sort_Sort : list ControllerRevision → list ControllerRevision;
  sort_Sort_perm : ∀ l, sort_Sort l ≡ₚ l;
  sort_Sort_sorted : ∀ l, StronglySorted byRevision (sort_Sort l)
}.

(** The insertion sort [sort.Sort] runs on slices of fewer than 12
    elements: element [i] moves left while it is [Less] than its left
    neighbour. *)
Fixpoint insertionStep (x : ControllerRevision) (sorted : list ControllerRevision)
  : list ControllerRevision :=
  match sorted with
  | [] => [x]
  | y :: rest => if Less x y then x :: y :: rest else y :: insertionStep x rest
  end.

Definition insertionSort (l : list ControllerRevision) : list ControllerRevision :=
  fold_left (λ sorted x, insertionStep x sorted) l [].

(** ** [findHistory] (rollback.go) *)

(** The loop of the [else] branch: the first revision whose number is
    [toRevision]. *)
Fixpoint findMatching (toRevision : Z) (allHistory : list ControllerRevision)
  : option ControllerRevision :=
  match allHistory with
  | [] => None
  | h :: rest =>
      if bool_decide (Revision h = toRevision) then Some h
      else findMatching toRevision rest
  end.

(** [findHistory]; [None] is the nil pointer.  The Go function sorts the
    caller's slice in place; the result alone is modelled here. *)
Definition findHistory `{Sorter} (toRevision : Z) (allHistory : list ControllerRevision)
  : option ControllerRevision :=
  if bool_decide (toRevision = 0) && bool_decide (length allHistory ≤ 1)%nat then None
  else if bool_decide (toRevision = 0) then
    sort_Sort allHistory !! (length allHistory - 2)%nat
  else findMatching toRevision allHistory.

(** ** The imported packages *)

(** [api.PodTemplateSpec], the internal version the describer prints. *)
Record api_PodTemplateSpec : Type := mkInternalTemplate {
  Internal_Annotations : gmap string string;
  Internal_Spec : string
}.

(** The functions and constants of the packages the two files import.
    None of them talks to the API server. *)
Class Libraries : Type := mkLibraries {
  (* k8s.io/apimachinery/pkg/api/meta and pkg/apis/meta/v1 *)
  Accessor : Object → Result ObjectMeta;
  LabelSelectorAsSelector : LabelSelector → Result string;
  IsControlledBy : ControllerRevision → ObjectMeta → bool;
  (* fmt: an object under %#v, its kind under %v, a string under %q *)
  fmt_GoString : Object → string;
  fmt_ObjectKind : Object → string;
  fmt_q : string → string;
  (* encoding/json and strategicpatch, at the DaemonSet schema;
     Unmarshal writes into the struct it is given, also when it fails *)
  json_Marshal : DaemonSet → Result Bytes;
  StrategicMergePatch : Bytes → Bytes → Result Bytes;
  json_Unmarshal : Bytes → DaemonSet → DaemonSet * option error;
  (* pkg/controller/daemon and pkg/controller/statefulset *)
  daemon_Match : DaemonSet → ControllerRevision → Result bool;
  statefulset_ApplyRevision : StatefulSet → ControllerRevision → Result StatefulSet;
  statefulset_Match : StatefulSet → ControllerRevision → Result bool;
  (* pkg/controller/deployment/util *)
  deploymentutil_Revision : ReplicaSet → Result Z;
  RollbackRevisionNotFound : string;
  RollbackTemplateUnchanged : string;
  RollbackDone : string;
  (* legacyscheme, pkg/api/v1 and the internal printers *)
  Scheme_Convert : Deployment → Result Deployment;
  Convert_v1_PodTemplateSpec_To_api_PodTemplateSpec :
    PodTemplateSpec → Result api_PodTemplateSpec;
  DescribePodTemplate : api_PodTemplateSpec → string;
  (* text/tabwriter after Init(buf, 0, 8, 2, ' ', 0): the text Flush
     leaves in the buffer for the text written *)
  tabwriter_Flush : string → string
}.

(** Modelled from the spec: [sliceutil.SortInts64] of
    k8s.io/kubectl/pkg/util/slice, which belongs to this repository but is
    not among its source files; it puts a slice of revision numbers in
    ascending order. *)
Definition SortInts64 (a : list Z) : list Z := merge_sort Z.le a.

(** ** The API server *)

Record DeploymentRollback : Type := mkDeploymentRollback {
  Rollback_Name : string;
  UpdatedAnnotations : gmap string string;
  RollbackTo_Revision : Z
}.

(** What one round of the [select] in [watchRollbackEvent] receives; the
    end of the list is the closed result channel. *)
Inductive Received : Type :=
  | EventReceived (e : Event)
  | OtherReceived (description : string)
  | SignalReceived.

(** The requests the code sends. *)
Inductive Call : Type :=
  | GetDeployment (namespace name : string)
  | GetDaemonSet (namespace name : string)
  | GetStatefulSet (namespace name : string)
  | ListReplicaSets (namespace name : string)
  | ListControllerRevisions (namespace selector : string)
  | ListEvents (namespace : string)
  | WatchEvents (namespace resourceVersion : string)
  | PatchDaemonSet (namespace name : string) (patch : Bytes)
  | PatchStatefulSet (namespace name : string) (patch : Bytes)
  | RollbackDeployment (namespace : string) (rollback : DeploymentRollback).

(** The requests that change an object on the server. *)
Definition mutating (c : Call) : bool :=
  match c with
  | PatchDaemonSet _ _ _ | PatchStatefulSet _ _ _ | RollbackDeployment _ _ => true
  | _ => false
  end.

(** [kubernetes.Interface]: the answer of the server to each request.
    [GetAllReplicaSets] is the helper of deploymentutil that lists the
    replica sets of a deployment through the client. *)
Class Interface : Type := mkInterface {
  Deployments_Get : string → string → Result Deployment;
  DaemonSets_Get : string → string → Result DaemonSet;
  StatefulSets_Get : string → string → Result StatefulSet;
  GetAllReplicaSets : Deployment → Result (list ReplicaSet * option ReplicaSet);
  ControllerRevisions_List : string → string → Result (list ControllerRevision);
  Events_List : string → Result string;
  Events_Watch : string → string → Result (list Received);
  DaemonSets_Patch : string → string → Bytes → Result DaemonSet;
  StatefulSets_Patch : string → string → Bytes → Result StatefulSet;
  Deployments_Rollback : string → DeploymentRollback → Result unit
}.

(** ** Errors and the trace of requests *)

Global Instance Result_ret : MRet Result := λ A a, Ok a.
Global Instance Result_bind : MBind Result := λ A B f r,
  match r with
  | Ok a => f a
  | Err e => Err e
  end.

(** [if err != nil { return fmt.Errorf(..., err) }] *)
Definition wrapErr {A} (f : error → error) (r : Result A) : Result A :=
  match r with
  | Ok a => Ok a
  | Err e => Err (f e)
  end.

(** A computation that sends requests: the requests sent, in order, and
    what it returns. *)
Definition M (A : Type) : Type := list Call * Result A.

Global Instance M_ret : MRet M := λ A a, ([], Ok a).
Global Instance M_bind : MBind M := λ A B f m,
  match m with
  | (t, Ok a) => let '(t', r) := f a in (t ++ t', r)
  | (t, Err e) => (t, Err e)
  end.

Definition lift {A} (r : Result A) : M A := ([], r).
Definition fail {A} (e : error) : M A := ([], Err e).
Definition call {A} (c : Call) (answer : Result A) : M A := ([c], answer).
Definition wrapM {A} (f : error → error) (m : M A) : M A := (m.1, wrapErr f m.2).

Definition trace {A} (m : M A) : list Call := m.1.
Definition result {A} (m : M A) : Result A := m.2.

(** No request of the trace changes an object on the server. *)
Definition noMutation (t : list Call) : Prop := Forall (λ c, mutating c = false) t.

(** ** history.go *)

Definition ChangeCauseAnnotation : string := "kubernetes.io/change-cause".

Definition LF : string := String (Ascii.ascii_of_nat 10) EmptyString.
Definition TAB : string := String (Ascii.ascii_of_nat 9) EmptyString.

Section History.
Context `{Libraries} `{Interface}.

(** [tabbedString]: [f] is what the callback writes, or its error. *)
Definition tabbedString (f : Result string) : Result string :=
  written ← f; Ok (tabwriter_Flush written).

(** [getChangeCause] *)
Definition getChangeCause (obj : Object) : string :=
  match Accessor obj with
  | Err _ => EmptyString
  | Ok accessor => default EmptyString (Annotations accessor !! ChangeCauseAnnotation)
  end.

(** [printTemplate] *)
Definition printTemplate (template : PodTemplateSpec) : Result string :=
  internalTemplate ←
    wrapErr (λ err, "failed to convert podtemplate, " +:+ err)
      (Convert_v1_PodTemplateSpec_To_api_PodTemplateSpec template);
  Ok (DescribePodTemplate internalTemplate).

(** One [%d\t%s\n] line of the overview. *)
Definition changeCauseRow (r : Z) (annotations : gmap string string) : string :=
  let changeCause := default EmptyString (annotations !! ChangeCauseAnnotation) in
  let changeCause :=
    if bool_decide (String.length changeCause = 0%nat) then "<none>" else changeCause in
  fmt_d r +:+ TAB +:+ changeCause +:+ LF.

(** The loop of [DeploymentHistoryViewer.ViewHistory] that fills
    [historyInfo]: a replica set whose revision does not parse is
    skipped; a later replica set of the same revision replaces an
    earlier one. *)
Definition deploymentHistoryInfo (allRSs : list ReplicaSet) : gmap Z PodTemplateSpec :=
  fold_left (λ historyInfo rs,
    match deploymentutil_Revision rs with
    | Err _ => historyInfo
    | Ok v =>
        let changeCause := getChangeCause (ReplicaSetObject rs) in
        let template := Template_of_rs rs in
        let template :=
          if bool_decide (0 < String.length changeCause)%nat then
            mkPodTemplateSpec
              (<[ChangeCauseAnnotation := changeCause]> (Template_Annotations template))
              (Template_Spec template)
          else template in
        <[v := template]> historyInfo
    end) allRSs ∅.

(** [DeploymentHistoryViewer.ViewHistory] *)
Definition DeploymentHistoryViewer_ViewHistory (namespace name : string) (revision : Z)
  : M string :=
  deployment ← call (GetDeployment namespace name)
    (wrapErr (λ err, "failed to retrieve deployment " +:+ name +:+ ": " +:+ err)
       (Deployments_Get namespace name));
  '(allOldRSs, newRS) ← call (ListReplicaSets namespace name)
    (wrapErr (λ err, "failed to retrieve replica sets from deployment "
                       +:+ name +:+ ": " +:+ err)
       (GetAllReplicaSets deployment));
  let allRSs := allOldRSs ++ option_list newRS in
  let historyInfo := deploymentHistoryInfo allRSs in
  if bool_decide (size historyInfo = 0%nat) then mret "No rollout history found."
  else if bool_decide (0 < revision) then
    match historyInfo !! revision with
    | None => fail "unable to find the specified revision"
    | Some template => lift (printTemplate template)
    end
  else
    let revisions := SortInts64 (map_to_list historyInfo).*1 in
    lift (tabbedString (Ok (
      "REVISION" +:+ TAB +:+ "CHANGE-CAUSE" +:+ LF +:+
      String.concat EmptyString
        ((λ r, changeCauseRow r
                 (from_option Template_Annotations ∅ (historyInfo !! r)))
           <$> revisions)))).

(** [controlledHistory] *)
Definition controlledHistory (namespace selector : string) (accessor : ObjectMeta)
  : M (list ControllerRevision) :=
  historyList ← call (ListControllerRevisions namespace selector)
    (ControllerRevisions_List namespace selector);
  mret (filter (λ history, IsControlledBy history accessor = true) historyList).

(** [daemonSetHistory] *)
Definition daemonSetHistory (namespace name : string)
  : M (DaemonSet * list ControllerRevision) :=
  ds ← call (GetDaemonSet namespace name)
    (wrapErr (λ err, "failed to retrieve DaemonSet " +:+ name +:+ ": " +:+ err)
       (DaemonSets_Get namespace name));
  let ds_Name := Name (ObjectMeta_of_ds ds) in
  selector ← lift
    (wrapErr (λ err, "failed to create selector for DaemonSet "
                       +:+ ds_Name +:+ ": " +:+ err)
       (LabelSelectorAsSelector (Selector_of_ds ds)));
  accessor ← lift
    (wrapErr (λ err, "failed to create accessor for DaemonSet "
                       +:+ ds_Name +:+ ": " +:+ err)
       (Accessor (DaemonSetObject ds)));
  history ← wrapM
    (λ err, "unable to find history controlled by DaemonSet "
              +:+ ds_Name +:+ ": " +:+ err)
    (controlledHistory (Namespace (ObjectMeta_of_ds ds)) selector accessor);
  mret (ds, history).

(** [statefulSetHistory] *)
Definition statefulSetHistory (namespace name : string)
  : M (StatefulSet * list ControllerRevision) :=
  sts ← call (GetStatefulSet namespace name)
    (wrapErr (λ err, "failed to retrieve Statefulset " +:+ name +:+ ": " +:+ err)
       (StatefulSets_Get namespace name));
  selector ← lift
    (wrapErr (λ err, "failed to create selector for StatefulSet "
                       +:+ name +:+ ": " +:+ err)
       (LabelSelectorAsSelector (Selector_of_sts sts)));
  accessor ← lift
    (wrapErr (λ err, "failed to obtain accessor for StatefulSet "
                       +:+ name +:+ ": " +:+ err)
       (Accessor (StatefulSetObject sts)));
  history ← wrapM
    (λ err, "unable to find history controlled by StatefulSet "
              +:+ name +:+ ": " +:+ err)
    (controlledHistory namespace selector accessor);
  mret (sts, history).

(** [ds.DeepCopy()] on the DaemonSet objects in memory, which are held
    by address: a new object with the contents of the one at [ds]. *)
Definition DeepCopy (heap : gmap positive DaemonSet) (ds : positive)
  : option (gmap positive DaemonSet * positive) :=
  contents ← heap !! ds;
  let clone := fresh (dom heap) in
  Some (<[clone := contents]> heap, clone).

(** [applyDaemonSetHistory] on pointers: the memory it leaves and the
    pointer or error it returns.  [None] when [ds] points to no object,
    a case the callers exclude. *)
Definition applyDaemonSetHistory (heap : gmap positive DaemonSet) (ds : positive)
    (history : ControllerRevision)
  : option (gmap positive DaemonSet * Result positive) :=
  '(heap, clone) ← DeepCopy heap ds;
  contents ← heap !! clone;
  match json_Marshal contents with
  | Err err => Some (heap, Err err)
  | Ok cloneBytes =>
      match StrategicMergePatch cloneBytes (Data_Raw history) with
      | Err err => Some (heap, Err err)
      | Ok patched =>
          let '(contents, err) := json_Unmarshal patched contents in
          let heap := <[clone := contents]> heap in
          Some (heap, match err with
                      | Some err => Err err
                      | None => Ok clone
                      end)
      end
  end.

(** What a caller of [applyDaemonSetHistory] reads behind the pointer
    it gets back. *)
Definition outcome (heap : gmap positive DaemonSet) (r : Result positive)
  : option (Result DaemonSet) :=
  match r with
  | Ok clone => Ok <$> heap !! clone
  | Err err => Some (Err err)
  end.

(** [applyDaemonSetHistory] on the contents of the object [ds] points
    to, for the callers that just fetched [ds] and only read the
    result. *)
Definition applyDaemonSetHistory_value (ds : DaemonSet) (history : ControllerRevision)
  : Result DaemonSet :=
  cloneBytes ← json_Marshal ds;
  patched ← StrategicMergePatch cloneBytes (Data_Raw history);
  match json_Unmarshal patched ds with
  | (clone, None) => Ok clone
  | (_, Some err) => Err err
  end.

(** The loop of [DaemonSetHistoryViewer.ViewHistory] that fills
    [historyInfo]. *)
Definition daemonSetHistoryInfo (history : list ControllerRevision)
  : gmap Z ControllerRevision :=
  fold_left (λ historyInfo history, <[Revision history := history]> historyInfo)
    history ∅.

(** [DaemonSetHistoryViewer.ViewHistory] *)
Definition DaemonSetHistoryViewer_ViewHistory (namespace name : string) (revision : Z)
  : M string :=
  '(ds, history) ← daemonSetHistory namespace name;
  let historyInfo := daemonSetHistoryInfo history in
  if bool_decide (size historyInfo = 0%nat) then mret "No rollout history found."
  else if bool_decide (0 < revision) then
    match historyInfo !! revision with
    | None => fail "unable to find the specified revision"
    | Some history =>
        match applyDaemonSetHistory_value ds history with
        | Err _ =>
            fail ("unable to parse history "
                    +:+ Name (ObjectMeta_of_revision history))
        | Ok dsOfHistory => lift (printTemplate (Template_of_ds dsOfHistory))
        end
    end
  else
    let revisions := SortInts64 (map_to_list historyInfo).*1 in
    lift (tabbedString (Ok (
      "REVISION" +:+ TAB +:+ "CHANGE-CAUSE" +:+ LF +:+
      String.concat EmptyString
        ((λ r, changeCauseRow r
                 (from_option (Annotations ∘ ObjectMeta_of_revision) ∅
                    (historyInfo !! r)))
           <$> revisions)))).

(** The slice [StatefulSetHistoryViewer.ViewHistory] sorts:
    [make([]int64, len(history))] holds [len(history)] zeros, and the
    loop appends the revision numbers behind them. *)
Definition statefulSetRevisions (history : list ControllerRevision) : list Z :=
  replicate (length history) 0 ++ (Revision <$> history).

(** [StatefulSetHistoryViewer.ViewHistory]; [revision] is not used. *)
Definition StatefulSetHistoryViewer_ViewHistory (namespace name : string) (revision : Z)
  : M string :=
  '(_, history) ← statefulSetHistory namespace name;
  if bool_decide (length history ≤ 0)%nat then mret "No rollout history found."
  else
    let revisions := SortInts64 (statefulSetRevisions history) in
    lift (tabbedString (Ok (
      "REVISION" +:+ LF +:+
      String.concat EmptyString ((λ r, fmt_d r +:+ LF) <$> revisions)))).
End History.

(** ** rollback.go *)

Definition rollbackSuccess : string := "rolled back".
Definition rollbackSkipped : string := "skipped rollback".

(** The nil dereference of Go, for the places where the model has to
    give a lookup that cannot miss its second branch. *)
Definition nilDereference : error :=
  "panic: runtime error: invalid memory address or nil pointer dereference".

(** What [watchRollbackEvent] leaves behind: the string it returns, how
    often it called [w.Stop()], and what it did not take from the
    channel. *)
Record Watched : Type := mkWatched {
  watched_result : string;
  watched_stops : nat;
  watched_rest : list Received
}.

Section Rollback.
Context `{Sorter} `{Libraries} `{Interface}.

(** [revisionNotFoundErr] *)
Definition revisionNotFoundErr (r : Z) : error :=
  "unable to find specified revision " +:+ fmt_d r +:+ " in history".

(** [printPodTemplate] *)
Definition printPodTemplate (specTemplate : PodTemplateSpec) : Result string :=
  internalTemplate ←
    wrapErr (λ err, "failed to convert podtemplate while printing: " +:+ err)
      (Convert_v1_PodTemplateSpec_To_api_PodTemplateSpec specTemplate);
  Ok ("will roll back to " +:+ DescribePodTemplate internalTemplate).

(** The loop of [isRollbackEvent] over [rollbackEventReasons]. *)
Fixpoint isRollbackEventIn (e : Event) (reasons : list string) : bool * string :=
  match reasons with
  | [] => (false, EmptyString)
  | reason :: rest =>
      if bool_decide (Reason e = reason) then
        if bool_decide (reason = RollbackDone) then (true, rollbackSuccess)
        else (true, rollbackSkipped +:+ " (" +:+ Reason e +:+ ": "
                      +:+ Message e +:+ ")")
      else isRollbackEventIn e rest
  end.

(** [isRollbackEvent] *)
Definition isRollbackEvent (e : Event) : bool * string :=
  isRollbackEventIn e
    [RollbackRevisionNotFound; RollbackTemplateUnchanged; RollbackDone].

(** [watchRollbackEvent], on what the [select] receives round by round.
    After a signal the loop calls [w.Stop()] and goes on. *)
Fixpoint watchRollbackEvent (w : list Received) : Watched :=
  match w with
  | [] => mkWatched EmptyString 0 []
  | EventReceived obj :: rest =>
      let '(isRollback, result) := isRollbackEvent obj in
      if isRollback then mkWatched result 1 rest
      else watchRollbackEvent rest
  | OtherReceived _ :: rest => mkWatched EmptyString 1 rest
  | SignalReceived :: rest =>
      let later := watchRollbackEvent rest in
      mkWatched (watched_result later) (S (watched_stops later)) (watched_rest later)
  end.

(** The loop of [simpleDryRun] that fills [revisionToSpec]. *)
Definition revisionToSpecOf (allRSs : list ReplicaSet) : gmap Z PodTemplateSpec :=
  fold_left (λ revisionToSpec rs,
    match deploymentutil_Revision rs with
    | Err _ => revisionToSpec
    | Ok v => <[v := Template_of_rs rs]> revisionToSpec
    end) allRSs ∅.

(** [simpleDryRun] *)
Definition simpleDryRun (deployment : Deployment) (toRevision : Z) : M string :=
  let deployment_Name := Name (ObjectMeta_of_deployment deployment) in
  externalDeployment ← lift
    (wrapErr (λ err, "failed to convert deployment, " +:+ err)
       (Scheme_Convert deployment));
  '(allOldRSs, newRS) ←
    call (ListReplicaSets (Namespace (ObjectMeta_of_deployment externalDeployment))
            (Name (ObjectMeta_of_deployment externalDeployment)))
      (wrapErr (λ err, "failed to retrieve replica sets from deployment "
                         +:+ deployment_Name +:+ ": " +:+ err)
         (GetAllReplicaSets externalDeployment));
  let allRSs := allOldRSs ++ option_list newRS in
  let revisionToSpec := revisionToSpecOf allRSs in
  if bool_decide (size revisionToSpec < 2)%nat then
    fail ("no rollout history found for deployment " +:+ fmt_q deployment_Name)
  else if bool_decide (0 < toRevision) then
    match revisionToSpec !! toRevision with
    | None => fail (revisionNotFoundErr toRevision)
    | Some template =>
        internalTemplate ← lift
          (wrapErr (λ err, "failed to convert podtemplate, " +:+ err)
             (Convert_v1_PodTemplateSpec_To_api_PodTemplateSpec template));
        mret (DescribePodTemplate internalTemplate)
    end
  else
    let revisions := SortInts64 (map_to_list revisionToSpec).*1 in
    match revisions !! (length revisions - 2)%nat ≫= (revisionToSpec !!.) with
    | None => fail nilDereference
    | Some template =>
        internalTemplate ← lift
          (wrapErr (λ err, "failed to convert podtemplate, " +:+ err)
             (Convert_v1_PodTemplateSpec_To_api_PodTemplateSpec template));
        mret (LF +:+ DescribePodTemplate internalTemplate)
    end.

(** [DeploymentRollbacker.Rollback] *)
Definition DeploymentRollbacker_Rollback (obj : Object)
    (updatedAnnotations : gmap string string) (toRevision : Z) (dryRun : bool)
  : M string :=
  match obj with
  | DeploymentObject d =>
      let d_Name := Name (ObjectMeta_of_deployment d) in
      let d_Namespace := Namespace (ObjectMeta_of_deployment d) in
      if dryRun then simpleDryRun d toRevision
      else if Paused d then
        fail ("you cannot rollback a paused deployment; resume it first with "
                +:+ "'kubectl rollout resume deployment/" +:+ d_Name
                +:+ "' and try again")
      else
        let deploymentRollback :=
          mkDeploymentRollback d_Name updatedAnnotations toRevision in
        events_ResourceVersion ← call (ListEvents d_Namespace) (Events_List d_Namespace);
        _ ← call (RollbackDeployment d_Namespace deploymentRollback)
              (Deployments_Rollback d_Namespace deploymentRollback);
        watch ← call (WatchEvents d_Namespace events_ResourceVersion)
                  (Events_Watch d_Namespace events_ResourceVersion);
        mret (watched_result (watchRollbackEvent watch))
  | _ => fail ("passed object is not a Deployment: " +:+ fmt_GoString obj)
  end.

(** [DaemonSetRollbacker.Rollback] *)
Definition DaemonSetRollbacker_Rollback (obj : Object)
    (updatedAnnotations : gmap string string) (toRevision : Z) (dryRun : bool)
  : M string :=
  if bool_decide (toRevision < 0) then fail (revisionNotFoundErr toRevision)
  else
    accessor ← lift
      (wrapErr (λ err, "failed to create accessor for kind "
                         +:+ fmt_ObjectKind obj +:+ ": " +:+ err)
         (Accessor obj));
    '(ds, history) ← daemonSetHistory (Namespace accessor) (Name accessor);
    if bool_decide (toRevision = 0) && bool_decide (length history ≤ 1)%nat then
      fail "no last revision to roll back to"
    else
      match findHistory toRevision history with
      | None => fail (revisionNotFoundErr toRevision)
      | Some toHistory =>
          if dryRun then
            appliedDS ← lift (applyDaemonSetHistory_value ds toHistory);
            lift (printPodTemplate (Template_of_ds appliedDS))
          else
            done ← lift (daemon_Match ds toHistory);
            if done : bool then
              mret (rollbackSkipped +:+ " (current template already matches revision "
                      +:+ fmt_d toRevision +:+ ")")
            else
              _ ← call (PatchDaemonSet (Namespace accessor) (Name accessor)
                          (Data_Raw toHistory))
                    (wrapErr (λ err, "failed restoring revision "
                                       +:+ fmt_d toRevision +:+ ": " +:+ err)
                       (DaemonSets_Patch (Namespace accessor) (Name accessor)
                          (Data_Raw toHistory)));
              mret rollbackSuccess
      end.

(** [StatefulSetRollbacker.Rollback] *)
Definition StatefulSetRollbacker_Rollback (obj : Object)
    (updatedAnnotations : gmap string string) (toRevision : Z) (dryRun : bool)
  : M string :=
  if bool_decide (toRevision < 0) then fail (revisionNotFoundErr toRevision)
  else
    accessor ← lift
      (wrapErr (λ err, "failed to create accessor for kind "
                         +:+ fmt_ObjectKind obj +:+ ": " +:+ err)
         (Accessor obj));
    '(sts, history) ← statefulSetHistory (Namespace accessor) (Name accessor);
    if bool_decide (toRevision = 0) && bool_decide (length history ≤ 1)%nat then
      fail "no last revision to roll back to"
    else
      match findHistory toRevision history with
      | None => fail (revisionNotFoundErr toRevision)
      | Some toHistory =>
          if dryRun then
            appliedSS ← lift (statefulset_ApplyRevision sts toHistory);
            lift (printPodTemplate (Template_of_sts appliedSS))
          else
            done ← lift (statefulset_Match sts toHistory);
            if done : bool then
              mret (rollbackSkipped +:+ " (current template already matches revision "
                      +:+ fmt_d toRevision +:+ ")")
            else
              let sts_Namespace := Namespace (ObjectMeta_of_sts sts) in
              let sts_Name := Name (ObjectMeta_of_sts sts) in
              _ ← call (PatchStatefulSet sts_Namespace sts_Name (Data_Raw toHistory))
                    (wrapErr (λ err, "failed restoring revision "
                                       +:+ fmt_d toRevision +:+ ": " +:+ err)
                       (StatefulSets_Patch sts_Namespace sts_Name (Data_Raw toHistory)));
              mret rollbackSuccess
      end.
End Rollback.

(** ** The factories and the interfaces *)

(** [schema.GroupKind] *)
Record GroupKind : Type := mkGroupKind {
  Group : string;
  Kind : string
}.

Global Instance GroupKind_eq_dec : EqDecision GroupKind.
Proof. solve_decision. Defined.


(** The implementations of the interface [Rollbacker]. *)
Inductive Rollbacker : Type :=
  | DeploymentRollbacker
  | DaemonSetRollbacker
  | StatefulSetRollbacker.

(** The implementations of the interface [HistoryViewer]. *)
Inductive HistoryViewer : Type :=
  | DeploymentHistoryViewer
  | StatefulSetHistoryViewer
  | DaemonSetHistoryViewer.

Section Factories.
Context `{Sorter} `{Libraries} `{Interface} `{Kinds}.



(** The method [Rollback] of the interface [Rollbacker]. *)
Definition Rollback (r : Rollbacker) (obj : Object)
    (updatedAnnotations : gmap string string) (toRevision : Z) (dryRun : bool)
  : M string :=
  match r with
  | DeploymentRollbacker =>
      DeploymentRollbacker_Rollback obj updatedAnnotations toRevision dryRun
  | DaemonSetRollbacker =>
      DaemonSetRollbacker_Rollback obj updatedAnnotations toRevision dryRun
  | StatefulSetRollbacker =>
      StatefulSetRollbacker_Rollback obj updatedAnnotations toRevision dryRun
  end.

(** The method [ViewHistory] of the interface [HistoryViewer]. *)
Definition ViewHistory (h : HistoryViewer) (namespace name : string) (revision : Z)
  : M string :=
  match h with
  | DeploymentHistoryViewer => DeploymentHistoryViewer_ViewHistory namespace name revision
  | StatefulSetHistoryViewer => StatefulSetHistoryViewer_ViewHistory namespace name revision
  | DaemonSetHistoryViewer => DaemonSetHistoryViewer_ViewHistory namespace name revision
  end.
End Factories.

(** [historiesByRevision.Len] *)
Definition historiesByRevision_Len (h : list ControllerRevision) : nat := length h.

(** [historiesByRevision.Swap]; [None] is the panic of an index out of
    range. *)
Definition historiesByRevision_Swap (h : list ControllerRevision) (i j : nat)
  : option (list ControllerRevision) :=
  hi ← h !! i;
  hj ← h !! j;
  Some (<[j := hi]> (<[i := hj]> h)).

(** [historiesByRevision.Less], by index. *)
Definition historiesByRevision_Less (h : list ControllerRevision) (i j : nat)
  : option bool :=
  hi ← h !! i;
  hj ← h !! j;
  Some (Less hi hj).

(** * What the statements speak of *)

(** [h] carries the largest revision number of [l]. *)
Definition largest (h : ControllerRevision) (l : list ControllerRevision) : Prop :=
  ∀ x, x ∈ l → Revision x ≤ Revision h.

(** [h] carries the second-largest revision number of [l]: some [m] of
    [l] is the largest and lies strictly above [h], and whatever lies
    strictly below [m] is not above [h]. *)
Definition secondLargest (h : ControllerRevision) (l : list ControllerRevision) : Prop :=
  h ∈ l ∧
  ∃ m, m ∈ l ∧ largest m l ∧ Revision h < Revision m ∧
       ∀ x, x ∈ l → Revision x < Revision m → Revision x ≤ Revision h.

(** The message of a skipped rollback to [toRevision]. *)
Definition skippedMessage (toRevision : Z) : string :=
  rollbackSkipped +:+ " (current template already matches revision "
    +:+ fmt_d toRevision +:+ ")".

(** The error a real rollback of a paused deployment gets. *)
Definition pausedErr (d : Deployment) : error :=
  "you cannot rollback a paused deployment; resume it first with "
    +:+ "'kubectl rollout resume deployment/"
    +:+ Name (ObjectMeta_of_deployment d) +:+ "' and try again".

(** Every object that was in memory before the call is there
    unchanged after it. *)
Definition preserved (heap heap' : gmap positive DaemonSet) : Prop :=
  ∀ p contents, heap !! p = Some contents → heap' !! p = Some contents.

(** The requests of a trace that change an object on the server. *)
Definition mutatingCalls (t : list Call) : list Call :=
  filter (λ c, mutating c = true) t.

(** A signal among what the watch receives. *)
Definition isSignal (item : Received) : bool :=
  match item with
  | SignalReceived => true
  | _ => false
  end.

(** What the watch receives when no signal arrives. *)
Definition withoutSignals (w : list Received) : list Received :=
  filter (λ item, isSignal item = false) w.


Section Vocabulary.
Context `{Libraries} `{Interface}.

(** The history a DaemonSet rollback of [obj] works on. *)
Definition daemonSetHistoryOf (obj : Object) (ds : DaemonSet)
    (history : list ControllerRevision) : Prop :=
  ∃ accessor, Accessor obj = Ok accessor ∧
    result (daemonSetHistory (Namespace accessor) (Name accessor)) = Ok (ds, history).

(** The history a StatefulSet rollback of [obj] works on. *)
Definition statefulSetHistoryOf (obj : Object) (sts : StatefulSet)
    (history : list ControllerRevision) : Prop :=
  ∃ accessor, Accessor obj = Ok accessor ∧
    result (statefulSetHistory (Namespace accessor) (Name accessor)) = Ok (sts, history).

(** An event whose reason is none of the three the watch waits for. *)
Definition otherReason (item : Received) : Prop :=
  ∃ e, item = EventReceived e ∧
       Reason e ≠ RollbackRevisionNotFound ∧
       Reason e ≠ RollbackTemplateUnchanged ∧
       Reason e ≠ RollbackDone.
End Vocabulary.

(** * A concrete cluster

    Instances of the interfaces above, on which the statements are
    exercised: simple stand-ins for the imported packages, and an API
    server that answers from fixed data. *)

Definition DQUOTE : string := String (Ascii.ascii_of_nat 34) EmptyString.

(** [strconv.ParseInt] on the decimal digits of a revision annotation. *)
Fixpoint parseDigits (s : string) (acc : Z) : Result Z :=
  match s with
  | EmptyString => Ok acc
  | String c rest =>
      let n := Z.of_nat (Ascii.nat_of_ascii c) in
      if bool_decide (48 ≤ n ≤ 57) then parseDigits rest (10 * acc + (n - 48))
      else Err "invalid syntax"
  end.

Definition withSpec (template : PodTemplateSpec) (spec : string) : PodTemplateSpec :=
  mkPodTemplateSpec (Template_Annotations template) spec.

(** Stand-ins for the imported packages: an object is marshalled to the
    specification of its pod template, and a patch replaces it. *)
Definition exampleLibraries : Libraries := {|
  Accessor obj :=
    match obj with
    | DeploymentObject d => Ok (ObjectMeta_of_deployment d)
    | DaemonSetObject ds => Ok (ObjectMeta_of_ds ds)
    | StatefulSetObject sts => Ok (ObjectMeta_of_sts sts)
    | ReplicaSetObject rs => Ok (ObjectMeta_of_rs rs)
    | OtherObject _ => Err "object does not implement the Object interfaces"
    end;
  LabelSelectorAsSelector selector := Ok "app=web";
  IsControlledBy history owner :=
    bool_decide (Namespace (ObjectMeta_of_revision history) = Namespace owner);
  fmt_GoString obj := "&Object{}";
  fmt_ObjectKind obj := "&TypeMeta{}";
  fmt_q s := DQUOTE +:+ s +:+ DQUOTE;
  json_Marshal ds := Ok (Template_Spec (Template_of_ds ds));
  StrategicMergePatch original patch := Ok patch;
  json_Unmarshal patched ds :=
    (mkDaemonSet (ObjectMeta_of_ds ds) (Selector_of_ds ds)
       (withSpec (Template_of_ds ds) patched), None);
  daemon_Match ds history :=
    Ok (bool_decide (Template_Spec (Template_of_ds ds) = Data_Raw history));
  statefulset_ApplyRevision sts history :=
    Ok (mkStatefulSet (ObjectMeta_of_sts sts) (Selector_of_sts sts)
          (withSpec (Template_of_sts sts) (Data_Raw history)));
  statefulset_Match sts history :=
    Ok (bool_decide (Template_Spec (Template_of_sts sts) = Data_Raw history));
  deploymentutil_Revision rs :=
    match Annotations (ObjectMeta_of_rs rs) !! "deployment.kubernetes.io/revision" with
    | None => Ok 0
    | Some v => parseDigits v 0
    end;
  RollbackRevisionNotFound := "DeploymentRollbackRevisionNotFound";
  RollbackTemplateUnchanged := "DeploymentRollbackTemplateUnchanged";
  RollbackDone := "DeploymentRollback";
  Scheme_Convert d := Ok d;
  Convert_v1_PodTemplateSpec_To_api_PodTemplateSpec template :=
    Ok (mkInternalTemplate (Template_Annotations template) (Template_Spec template));
  DescribePodTemplate template := "Pod Template: " +:+ Internal_Spec template +:+ LF;
  tabwriter_Flush written := written
|}.

Definition webMeta : ObjectMeta := mkObjectMeta "web" "default" ∅.
Definition webSelector : LabelSelector := mkLabelSelector {[ "app" := "web" ]} [].

Definition snapshot (revision : Z) (raw : Bytes) : ControllerRevision :=
  mkControllerRevision
    (mkObjectMeta ("web-" +:+ fmt_d revision) "default" ∅) raw revision.

Definition webDaemonSet : DaemonSet :=
  mkDaemonSet webMeta webSelector (mkPodTemplateSpec ∅ "templateC").
Definition webStatefulSet : StatefulSet :=
  mkStatefulSet webMeta webSelector (mkPodTemplateSpec ∅ "templateC").
Definition webDeployment (paused : bool) : Deployment :=
  mkDeployment webMeta paused (mkPodTemplateSpec ∅ "templateC").

Definition replicaSet (revision : string) (spec : string) : ReplicaSet :=
  mkReplicaSet
    (mkObjectMeta ("web-" +:+ revision) "default"
       {[ "deployment.kubernetes.io/revision" := revision ]})
    (mkPodTemplateSpec ∅ spec).

(** An API server that holds the workload "web" of each kind, the given
    snapshots and replica sets, and sends the given events. *)
Definition exampleCluster (paused : bool) (snapshots : list ControllerRevision)
    (replicaSets : list ReplicaSet) (events : list Received) : Interface := {|
  Deployments_Get namespace name := Ok (webDeployment paused);
  DaemonSets_Get namespace name := Ok webDaemonSet;
  StatefulSets_Get namespace name := Ok webStatefulSet;
  GetAllReplicaSets deployment := Ok (replicaSets, None);
  ControllerRevisions_List namespace selector := Ok snapshots;
  Events_List namespace := Ok "42";
  Events_Watch namespace resourceVersion := Ok events;
  DaemonSets_Patch namespace name patch :=
    Ok (mkDaemonSet webMeta webSelector (mkPodTemplateSpec ∅ patch));
  StatefulSets_Patch namespace name patch :=
    Ok (mkStatefulSet webMeta webSelector (mkPodTemplateSpec ∅ patch));
  Deployments_Rollback namespace rollback := Ok ()
|}.

Definition threeSnapshots : list ControllerRevision :=
  [snapshot 3 "templateC"; snapshot 1 "templateA"; snapshot 2 "templateB"].

(** Two snapshots that carry the same revision number. *)
Definition twinSnapshots : list ControllerRevision :=
  [snapshot 3 "templateA"; snapshot 3 "templateB"].

Definition exampleReplicaSets : list ReplicaSet :=
  [replicaSet "1" "templateA"; replicaSet "2" "templateB"].

Definition oneSnapshotCluster : Interface :=
  exampleCluster false [snapshot 5 "templateX"] [] [].
Definition firstSnapshotCluster : Interface :=
  exampleCluster false [snapshot 1 "templateA"] [] [].
Definition threeSnapshotCluster : Interface :=
  exampleCluster false threeSnapshots exampleReplicaSets [].
Definition pausedCluster : Interface :=
  exampleCluster true [] exampleReplicaSets [].
Definition emptyCluster : Interface := exampleCluster false [] [] [].

(** The memory that holds the DaemonSet "web" at address 1. *)
Definition webHeap : gmap positive DaemonSet := {[ 1%positive := webDaemonSet ]}.

Definition scheduled : Received :=
  EventReceived (mkEvent "Scheduled" "assigned web-1 to node-1").
Definition laterEvents : list Received :=
  [EventReceived (mkEvent "Killing" "stopping web-0")].


Definition oneReplicaSetCluster : Interface :=
  exampleCluster false [] [replicaSet "1" "templateA"] [].

(** A server on which the DaemonSet and the StatefulSet are not found. *)
Definition missingWorkloadCluster : Interface := {|
  Deployments_Get namespace name := Ok (webDeployment false);
  DaemonSets_Get namespace name := Err "not found";
  StatefulSets_Get namespace name := Err "not found";
  GetAllReplicaSets deployment := Ok ([], None);
  ControllerRevisions_List namespace selector := Ok [];
  Events_List namespace := Ok "42";
  Events_Watch namespace resourceVersion := Ok [];
  DaemonSets_Patch namespace name patch := Err "not found";
  StatefulSets_Patch namespace name patch := Err "not found";
  Deployments_Rollback namespace rollback := Ok ()
|}.

(** A server that sends a pod event and then the rollback-done event. *)
Definition rolledBackCluster : Interface :=
  exampleCluster false [] exampleReplicaSets
    (scheduled :: EventReceived (mkEvent "DeploymentRollback" "rolled back to 1")
       :: laterEvents).

(** Snapshots of which two carry revision 2. *)
Definition repeatedSnapshots : list ControllerRevision :=
  [snapshot 2 "templateB"; snapshot 1 "templateA"; snapshot 2 "templateD"].

Definition repeatedSnapshotCluster : Interface :=
  exampleCluster false repeatedSnapshots [] [].

(** * Properties *)

(** ** Selecting the previous revision *)

Lemma last_two {A} (l : list A) :
  (2 ≤ length l)%nat → ∃ pre h m, l = pre ++ [h; m].
Proof.
  destruct l as [|m l _] using rev_ind; [simpl; lia|].
  destruct l as [|h pre _] using rev_ind.
  - simpl; lia.
  - intros _. exists pre, h, m. by rewrite <- app_assoc.
Qed.

Lemma lookup_last_two {A} (pre : list A) (h m : A) :
  (pre ++ [h; m]) !! (length (pre ++ [h; m]) - 2)%nat = Some h.
Proof.
  rewrite length_app. simpl.
  replace (length pre + 2 - 2)%nat with (length pre + 0)%nat by lia.
  by rewrite lookup_app_r, Nat.add_0_r, Nat.sub_diag by lia.
Qed.

Section FindHistory.
Context `{Sorter}.

Lemma findHistory_zero (allHistory : list ControllerRevision) :
  (2 ≤ length allHistory)%nat →
  findHistory 0 allHistory = sort_Sort allHistory !! (length allHistory - 2)%nat.
Proof.
  intros Hlen. unfold findHistory.
  rewrite (bool_decide_eq_true_2 (0 = 0)) by done.
  rewrite (bool_decide_eq_false_2 (length allHistory ≤ 1)%nat) by lia.
  done.
Qed.

(** With two snapshots or more, target 0 always finds a snapshot of the
    list: the one [sort.Sort] leaves next to last. *)
Lemma findHistory_zero_sorted (allHistory : list ControllerRevision) :
  (2 ≤ length allHistory)%nat →
  ∃ pre h m, sort_Sort allHistory = pre ++ [h; m] ∧
             findHistory 0 allHistory = Some h.
Proof.
  intros Hlen.
  pose proof (sort_Sort_perm allHistory) as Hperm.
  destruct (last_two (sort_Sort allHistory)) as (pre & h & m & Hs).
  { by rewrite Hperm. }
  exists pre, h, m. split; [done|].
  rewrite findHistory_zero by done.
  rewrite <- (Permutation_length Hperm), Hs.
  apply lookup_last_two.
Qed.

Lemma findMatching_None (toRevision : Z) (allHistory : list ControllerRevision) :
  (∀ h, h ∈ allHistory → Revision h ≠ toRevision) →
  findMatching toRevision allHistory = None.
Proof.
  induction allHistory as [|h rest IH]; intros Hno; [done|].
  simpl. rewrite bool_decide_eq_false_2.
  - apply IH. intros x Hx. apply Hno. by right.
  - apply Hno. by left.
Qed.

Lemma findMatching_Some (toRevision : Z) (allHistory : list ControllerRevision) h :
  findMatching toRevision allHistory = Some h →
  h ∈ allHistory ∧ Revision h = toRevision.
Proof.
  induction allHistory as [|x rest IH]; [done|].
  simpl. case_bool_decide as Hx.
  - intros [= <-]. split; [by left | done].
  - intros Hfind. destruct (IH Hfind). split; [by right | done].
Qed.

(** C1, as amended: on every history list of at least two snapshots
    whose revision numbers are pairwise distinct, [findHistory] with the
    sentinel target 0 returns the snapshot with the second-largest
    revision number, and never the one with the largest. *)
Theorem findHistory_previous_revision (allHistory : list ControllerRevision) :
  (2 ≤ length allHistory)%nat →
  NoDup (Revision <$> allHistory) →
  ∃ h, findHistory 0 allHistory = Some h ∧
       secondLargest h allHistory ∧ ¬ largest h allHistory.
Proof.
  intros Hlen Hnodup.
  destruct (findHistory_zero_sorted allHistory Hlen) as (pre & h & m & Hs & Hfind).
  pose proof (sort_Sort_perm allHistory) as Hperm.
  pose proof (sort_Sort_sorted allHistory) as Hsorted.
  rewrite Hs in Hperm, Hsorted.
  apply StronglySorted_app in Hsorted as (Hpre & _ & Hhm).
  apply StronglySorted_cons in Hhm as [Hhm _].
  rewrite Forall_singleton in Hhm. unfold byRevision in Hhm.
  assert (Revision h ≠ Revision m) as Hne.
  { rewrite <- Hperm, fmap_app in Hnodup.
    apply NoDup_app in Hnodup as (_ & _ & Hnd).
    simpl in Hnd. apply NoDup_cons in Hnd as [Hnotin _].
    intros Heq. apply Hnotin. rewrite Heq. by left. }
  assert (h ∈ pre ++ [h; m]) as Hh.
{ apply elem_of_app. right. by left. }
assert (m ∈ pre ++ [h; m]) as Hm.
{ apply elem_of_app. right. right. by left. }
assert (∀ x, x ∈ allHistory → x ∈ pre ∨ x = h ∨ x = m) as Hcases.
{ intros x Hx. rewrite <- Hperm in Hx.
  apply elem_of_app in Hx as [Hx | Hx]; [by left|].
  apply elem_of_cons in Hx as [-> | Hx]; [by right; left|].
  apply elem_of_cons in Hx as [-> | Hx]; [by right; right|].
  by apply elem_of_nil in Hx. }
assert (h ∈ [h; m]) as Hh' by (by left).
assert (m ∈ [h; m]) as Hm' by (right; by left).
rewrite Hperm in Hh, Hm.
assert (largest m allHistory) as Hmax.
{ intros x Hx. destruct (Hcases x Hx) as [Hin | [-> | ->]]; [|lia..].
  by apply (Hpre x m). }
exists h. split; [done|]. split.
- split; [done|].
  exists m. split; [done|].
  split; [done|]. split; [lia|].
  intros x Hx Hlt. destruct (Hcases x Hx) as [Hin | [-> | ->]]; [|lia..].
  by apply (Hpre x h).
- intros Hlargest. specialize (Hlargest m Hm). lia.
Qed.
End FindHistory.

(** ** Traces of the history lookups *)

Lemma M_bind_Ok {A B} (f : A → M B) (m : M A) (t : list Call) (a : A) :
  m = (t, Ok a) → m ≫= f = (t ++ trace (f a), result (f a)).
Proof. intros ->. unfold mbind, M_bind, trace, result. by destruct (f a). Qed.

Lemma M_bind_Err {A B} (f : A → M B) (m : M A) (t : list Call) (e : error) :
  m = (t, Err e) → m ≫= f = (t, Err e).
Proof. by intros ->. Qed.

Lemma M_eta {A} (m : M A) : m = (trace m, result m).
Proof. by destruct m. Qed.

Lemma trace_bind {A B} (f : A → M B) (m : M A) :
  trace (m ≫= f) =
  trace m ++ match result m with
             | Ok a => trace (f a)
             | Err _ => []
             end.
Proof.
  destruct m as [t [a|e]]; unfold mbind, M_bind, trace, result; simpl.
  - by destruct (f a).
  - by rewrite app_nil_r.
Qed.

Lemma result_bind {A B} (f : A → M B) (m : M A) :
  result (m ≫= f) = match result m with
                    | Ok a => result (f a)
                    | Err e => Err e
                    end.
Proof.
  destruct m as [t [a|e]]; unfold mbind, M_bind, trace, result; simpl; [|done].
  by destruct (f a).
Qed.

Lemma noMutation_nil : noMutation [].
Proof. constructor. Qed.

Lemma noMutation_app (t1 t2 : list Call) :
  noMutation t1 → noMutation t2 → noMutation (t1 ++ t2).
Proof. apply Forall_app_2. Qed.

Lemma noMutation_bind {A B} (f : A → M B) (m : M A) :
  noMutation (trace m) →
  (∀ a, result m = Ok a → noMutation (trace (f a))) →
  noMutation (trace (m ≫= f)).
Proof.
  intros Hm Hf. rewrite trace_bind. apply noMutation_app; [done|].
  destruct (result m); [by apply Hf | apply noMutation_nil].
Qed.

Lemma noMutation_call {A} (c : Call) (answer : Result A) :
  mutating c = false → noMutation (trace (call c answer)).
Proof. intros Hc. by repeat constructor. Qed.

Lemma noMutation_lift {A} (r : Result A) : noMutation (trace (lift r)).
Proof. constructor. Qed.

Lemma noMutation_fail {A} (e : error) : noMutation (trace (fail (A := A) e)).
Proof. constructor. Qed.

Lemma noMutation_mret {A} (a : A) : noMutation (trace (mret (M := M) a)).
Proof. constructor. Qed.

Lemma noMutation_wrapM {A} (f : error → error) (m : M A) :
  noMutation (trace m) → noMutation (trace (wrapM f m)).
Proof. done. Qed.

Create HintDb trace.

#[export] Hint Resolve noMutation_nil noMutation_call noMutation_lift
  noMutation_fail noMutation_mret noMutation_wrapM : trace.

(** Walks down a chain of binds, leaving what the hints do not close. *)
Ltac reads :=
  repeat first
    [ apply noMutation_bind; [| intros ? _]
    | progress auto with trace
    | match goal with
      | |- noMutation (trace (let '(_, _) := ?p in _)) => destruct p
      | |- noMutation (trace (if ?b then _ else _)) => destruct b
      | |- noMutation (trace (match ?o with Some _ => _ | None => _ end)) =>
          destruct o
      end ].

Section Traces.
Context `{Libraries} `{Interface}.

Lemma controlledHistory_reads (namespace selector : string) (accessor : ObjectMeta) :
  noMutation (trace (controlledHistory namespace selector accessor)).
Proof. unfold controlledHistory. reads. Qed.

Lemma daemonSetHistory_reads (namespace name : string) :
  noMutation (trace (daemonSetHistory namespace name)).
Proof.
  unfold daemonSetHistory. reads.
Qed.

Lemma statefulSetHistory_reads (namespace name : string) :
  noMutation (trace (statefulSetHistory namespace name)).
Proof.
  unfold statefulSetHistory. reads.
Qed.
End Traces.

#[export] Hint Resolve controlledHistory_reads daemonSetHistory_reads
  statefulSetHistory_reads : trace.

(** ** The client-reconstructed rollbacks *)

Lemma result_lift {A} (r : Result A) : result (lift r) = r.
Proof. done. Qed.

Lemma trace_lift {A} (r : Result A) : trace (lift r) = [].
Proof. done. Qed.

Lemma result_fail {A} (e : error) : result (fail (A := A) e) = Err e.
Proof. done. Qed.

Lemma trace_fail {A} (e : error) : trace (fail (A := A) e) = [].
Proof. done. Qed.

Lemma result_mret {A} (a : A) : result (mret (M := M) a) = Ok a.
Proof. done. Qed.

Lemma trace_mret {A} (a : A) : trace (mret (M := M) a) = [].
Proof. done. Qed.

Lemma result_call {A} (c : Call) (answer : Result A) : result (call c answer) = answer.
Proof. done. Qed.

Lemma trace_call {A} (c : Call) (answer : Result A) : trace (call c answer) = [c].
Proof. done. Qed.

Ltac run :=
  repeat first
    [ rewrite result_bind | rewrite trace_bind
    | rewrite result_lift | rewrite trace_lift
    | rewrite result_fail | rewrite trace_fail
    | rewrite result_mret | rewrite trace_mret
    | rewrite result_call | rewrite trace_call
    | progress cbn [wrapErr andb] ].

Section ClientRollback.
Context `{Sorter} `{Libraries} `{Interface}.

(** C2: on a history list of at most one snapshot, the DaemonSet and
    the StatefulSet rollback with target 0 fail with the error "no last
    revision to roll back to", and send no request that changes an
    object. *)
Theorem rollback_insufficient_history (obj : Object)
    (updatedAnnotations : gmap string string) (dryRun : bool)
    (history : list ControllerRevision) :
  (length history ≤ 1)%nat →
  (∀ ds, daemonSetHistoryOf obj ds history →
     let rollback := DaemonSetRollbacker_Rollback obj updatedAnnotations 0 dryRun in
     result rollback = Err "no last revision to roll back to" ∧
     noMutation (trace rollback)) ∧
  (∀ sts, statefulSetHistoryOf obj sts history →
     let rollback := StatefulSetRollbacker_Rollback obj updatedAnnotations 0 dryRun in
     result rollback = Err "no last revision to roll back to" ∧
     noMutation (trace rollback)).
Proof.
  intros Hlen. split.
  - intros ds (accessor & Hacc & Hhist) rollback. subst rollback.
    unfold DaemonSetRollbacker_Rollback.
    rewrite (bool_decide_eq_false_2 (0 < 0)) by lia.
    rewrite Hacc. run. rewrite Hhist. run.
    rewrite (bool_decide_eq_true_2 (0 = 0)) by done.
    rewrite (bool_decide_eq_true_2 (length history ≤ 1)%nat) by done.
    run. split; [done|].
    rewrite app_nil_r. apply daemonSetHistory_reads.
  - intros sts (accessor & Hacc & Hhist) rollback. subst rollback.
    unfold StatefulSetRollbacker_Rollback.
    rewrite (bool_decide_eq_false_2 (0 < 0)) by lia.
    rewrite Hacc. run. rewrite Hhist. run.
    rewrite (bool_decide_eq_true_2 (0 = 0)) by done.
    rewrite (bool_decide_eq_true_2 (length history ≤ 1)%nat) by done.
    run. split; [done|].
    rewrite app_nil_r. apply statefulSetHistory_reads.
Qed.
Lemma findHistory_Some_guard (toRevision : Z) (history : list ControllerRevision) h :
  findHistory toRevision history = Some h →
  bool_decide (toRevision = 0) && bool_decide (length history ≤ 1)%nat = false.
Proof.
  unfold findHistory.
  by destruct (bool_decide (toRevision = 0) && bool_decide (length history ≤ 1)%nat).
Qed.

Lemma findHistory_absent (toRevision : Z) (history : list ControllerRevision) :
  0 < toRevision →
  (∀ h, h ∈ history → Revision h ≠ toRevision) →
  findHistory toRevision history = None.
Proof.
  intros Hpos Hno. unfold findHistory.
  rewrite (bool_decide_eq_false_2 (toRevision = 0)) by lia.
  by apply findMatching_None.
Qed.

(** C3: the DaemonSet and the StatefulSet rollback fail with the
    revision-not-found error on a negative target, before any request
    is sent, and on a positive target that no snapshot of the history
    list carries, whatever the size of the list. *)
Theorem rollback_revision_not_found (obj : Object)
    (updatedAnnotations : gmap string string) (toRevision : Z) (dryRun : bool) :
  (toRevision < 0 →
     DaemonSetRollbacker_Rollback obj updatedAnnotations toRevision dryRun
       = ([], Err (revisionNotFoundErr toRevision)) ∧
     StatefulSetRollbacker_Rollback obj updatedAnnotations toRevision dryRun
       = ([], Err (revisionNotFoundErr toRevision))) ∧
  (0 < toRevision →
     ∀ history, (∀ h, h ∈ history → Revision h ≠ toRevision) →
       (∀ ds, daemonSetHistoryOf obj ds history →
          result (DaemonSetRollbacker_Rollback obj updatedAnnotations toRevision dryRun)
            = Err (revisionNotFoundErr toRevision)) ∧
       (∀ sts, statefulSetHistoryOf obj sts history →
          result (StatefulSetRollbacker_Rollback obj updatedAnnotations toRevision dryRun)
            = Err (revisionNotFoundErr toRevision))).
Proof.
  split.
  - intros Hneg.
    unfold DaemonSetRollbacker_Rollback, StatefulSetRollbacker_Rollback.
    by rewrite (bool_decide_eq_true_2 (toRevision < 0)) by done.
  - intros Hpos history Hno.
    pose proof (findHistory_absent toRevision history Hpos Hno) as Hfind.
    split.
    + intros ds (accessor & Hacc & Hhist).
      unfold DaemonSetRollbacker_Rollback.
      rewrite (bool_decide_eq_false_2 (toRevision < 0)) by lia.
      rewrite Hacc. run. rewrite Hhist. run.
      rewrite (bool_decide_eq_false_2 (toRevision = 0)) by lia.
      run. by rewrite Hfind.
    + intros sts (accessor & Hacc & Hhist).
      unfold StatefulSetRollbacker_Rollback.
      rewrite (bool_decide_eq_false_2 (toRevision < 0)) by lia.
      rewrite Hacc. run. rewrite Hhist. run.
      rewrite (bool_decide_eq_false_2 (toRevision = 0)) by lia.
      run. by rewrite Hfind.
Qed.

(** C5: when the snapshot a non-dry-run DaemonSet or StatefulSet
    rollback resolves already matches the live template, the rollback
    sends no request that changes an object and returns the skipped
    outcome, whose message says that the current template already
    matches the requested revision. *)
Theorem rollback_skips_matching_template (obj : Object)
    (updatedAnnotations : gmap string string) (toRevision : Z)
    (history : list ControllerRevision) (toHistory : ControllerRevision) :
  0 ≤ toRevision →
  findHistory toRevision history = Some toHistory →
  (∀ ds, daemonSetHistoryOf obj ds history →
     daemon_Match ds toHistory = Ok true →
     let rollback := DaemonSetRollbacker_Rollback obj updatedAnnotations toRevision false in
     result rollback = Ok (skippedMessage toRevision) ∧
     noMutation (trace rollback)) ∧
  (∀ sts, statefulSetHistoryOf obj sts history →
     statefulset_Match sts toHistory = Ok true →
     let rollback := StatefulSetRollbacker_Rollback obj updatedAnnotations toRevision false in
     result rollback = Ok (skippedMessage toRevision) ∧
     noMutation (trace rollback)).
Proof.
  intros Hpos Hfind.
  pose proof (findHistory_Some_guard _ _ _ Hfind) as Hguard.
  split.
  - intros ds (accessor & Hacc & Hhist) Hmatch rollback. subst rollback.
    unfold DaemonSetRollbacker_Rollback.
    rewrite (bool_decide_eq_false_2 (toRevision < 0)) by lia.
    rewrite Hacc. run. rewrite Hhist. run.
    rewrite Hguard, Hfind. run. rewrite Hmatch. run.
    split; [done|]. rewrite !app_nil_r. apply daemonSetHistory_reads.
  - intros sts (accessor & Hacc & Hhist) Hmatch rollback. subst rollback.
    unfold StatefulSetRollbacker_Rollback.
    rewrite (bool_decide_eq_false_2 (toRevision < 0)) by lia.
    rewrite Hacc. run. rewrite Hhist. run.
    rewrite Hguard, Hfind. run. rewrite Hmatch. run.
    split; [done|]. rewrite !app_nil_r. apply statefulSetHistory_reads.
Qed.

Lemma DaemonSetRollbacker_dry_run_reads (obj : Object)
    (updatedAnnotations : gmap string string) (toRevision : Z) :
  noMutation (trace (DaemonSetRollbacker_Rollback obj updatedAnnotations toRevision true)).
Proof. unfold DaemonSetRollbacker_Rollback. reads. Qed.

Lemma StatefulSetRollbacker_dry_run_reads (obj : Object)
    (updatedAnnotations : gmap string string) (toRevision : Z) :
  noMutation (trace (StatefulSetRollbacker_Rollback obj updatedAnnotations toRevision true)).
Proof. unfold StatefulSetRollbacker_Rollback. reads. Qed.

Lemma DaemonSetRollbacker_dry_run (obj : Object)
    (updatedAnnotations : gmap string string) (toRevision : Z)
    (history : list ControllerRevision) (toHistory : ControllerRevision)
    (ds appliedDS : DaemonSet) (internalTemplate : api_PodTemplateSpec) :
  0 ≤ toRevision →
  findHistory toRevision history = Some toHistory →
  daemonSetHistoryOf obj ds history →
  applyDaemonSetHistory_value ds toHistory = Ok appliedDS →
  Convert_v1_PodTemplateSpec_To_api_PodTemplateSpec (Template_of_ds appliedDS)
    = Ok internalTemplate →
  result (DaemonSetRollbacker_Rollback obj updatedAnnotations toRevision true)
    = Ok ("will roll back to " +:+ DescribePodTemplate internalTemplate).
Proof.
  intros Hpos Hfind (accessor & Hacc & Hhist) Happly Hconv.
  pose proof (findHistory_Some_guard _ _ _ Hfind) as Hguard.
  unfold DaemonSetRollbacker_Rollback.
  rewrite (bool_decide_eq_false_2 (toRevision < 0)) by lia.
  rewrite Hacc. run. rewrite Hhist. run.
  rewrite Hguard, Hfind. run. rewrite Happly. run.
  unfold printPodTemplate. by rewrite Hconv.
Qed.

Lemma StatefulSetRollbacker_dry_run (obj : Object)
    (updatedAnnotations : gmap string string) (toRevision : Z)
    (history : list ControllerRevision) (toHistory : ControllerRevision)
    (sts appliedSS : StatefulSet) (internalTemplate : api_PodTemplateSpec) :
  0 ≤ toRevision →
  findHistory toRevision history = Some toHistory →
  statefulSetHistoryOf obj sts history →
  statefulset_ApplyRevision sts toHistory = Ok appliedSS →
  Convert_v1_PodTemplateSpec_To_api_PodTemplateSpec (Template_of_sts appliedSS)
    = Ok internalTemplate →
  result (StatefulSetRollbacker_Rollback obj updatedAnnotations toRevision true)
    = Ok ("will roll back to " +:+ DescribePodTemplate internalTemplate).
Proof.
  intros Hpos Hfind (accessor & Hacc & Hhist) Happly Hconv.
  pose proof (findHistory_Some_guard _ _ _ Hfind) as Hguard.
  unfold StatefulSetRollbacker_Rollback.
  rewrite (bool_decide_eq_false_2 (toRevision < 0)) by lia.
  rewrite Hacc. run. rewrite Hhist. run.
  rewrite Hguard, Hfind. run. rewrite Happly. run.
  unfold printPodTemplate. by rewrite Hconv.
Qed.
End ClientRollback.

(** ** The server-assisted rollback and dry runs *)

Section DeploymentRollback.
Context `{Sorter} `{Libraries} `{Interface}.

Lemma simpleDryRun_reads (deployment : Deployment) (toRevision : Z) :
  noMutation (trace (simpleDryRun deployment toRevision)).
Proof. unfold simpleDryRun. cbv zeta. reads. Qed.

Lemma DeploymentRollbacker_dry_run_reads (obj : Object)
    (updatedAnnotations : gmap string string) (toRevision : Z) :
  noMutation (trace (DeploymentRollbacker_Rollback obj updatedAnnotations toRevision true)).
Proof.
  unfold DeploymentRollbacker_Rollback.
  destruct obj; auto using simpleDryRun_reads with trace.
Qed.

(** C6: a rollback with [dryRun] set sends no request that changes an
    object (no patch, no native rollback), whichever of the three
    rollbackers runs it and whatever the target; and when the target
    resolves to a snapshot that applies and renders, the DaemonSet and
    the StatefulSet rollback return the rendering of the reconstructed
    pod template behind the prefix "will roll back to ". *)
Theorem dry_run_never_mutates (obj : Object)
    (updatedAnnotations : gmap string string) (toRevision : Z) :
  (noMutation (trace (DeploymentRollbacker_Rollback obj updatedAnnotations toRevision true)) ∧
   noMutation (trace (DaemonSetRollbacker_Rollback obj updatedAnnotations toRevision true)) ∧
   noMutation (trace (StatefulSetRollbacker_Rollback obj updatedAnnotations toRevision true))) ∧
  (∀ history toHistory internalTemplate,
     0 ≤ toRevision →
     findHistory toRevision history = Some toHistory →
     (∀ ds appliedDS,
        daemonSetHistoryOf obj ds history →
        applyDaemonSetHistory_value ds toHistory = Ok appliedDS →
        Convert_v1_PodTemplateSpec_To_api_PodTemplateSpec (Template_of_ds appliedDS)
          = Ok internalTemplate →
        result (DaemonSetRollbacker_Rollback obj updatedAnnotations toRevision true)
          = Ok ("will roll back to " +:+ DescribePodTemplate internalTemplate)) ∧
     (∀ sts appliedSS,
        statefulSetHistoryOf obj sts history →
        statefulset_ApplyRevision sts toHistory = Ok appliedSS →
        Convert_v1_PodTemplateSpec_To_api_PodTemplateSpec (Template_of_sts appliedSS)
          = Ok internalTemplate →
        result (StatefulSetRollbacker_Rollback obj updatedAnnotations toRevision true)
          = Ok ("will roll back to " +:+ DescribePodTemplate internalTemplate))).
Proof.
  split.
  - split; [apply DeploymentRollbacker_dry_run_reads|].
    split; [apply DaemonSetRollbacker_dry_run_reads|].
    apply StatefulSetRollbacker_dry_run_reads.
  - intros history toHistory internalTemplate Hpos Hfind. split.
    + intros ds appliedDS Hhist Happly Hconv.
      by eapply DaemonSetRollbacker_dry_run.
    + intros sts appliedSS Hhist Happly Hconv.
      by eapply StatefulSetRollbacker_dry_run.
Qed.

(** C7, as amended: a Deployment rollback that is not a dry run, on a
    paused deployment, is turned down with the error that tells the
    caller to resume the deployment first, before any request is sent.
    (A dry run does not look at the pause.) *)
Theorem paused_deployment_rejected (d : Deployment)
    (updatedAnnotations : gmap string string) (toRevision : Z) :
  Paused d = true →
  DeploymentRollbacker_Rollback (DeploymentObject d) updatedAnnotations toRevision false
    = ([], Err (pausedErr d)).
Proof.
  intros Hpaused. unfold DeploymentRollbacker_Rollback. by rewrite Hpaused.
Qed.

(** A dry run of a Deployment is [simpleDryRun], paused or not. *)
Lemma DeploymentRollbacker_dry_run (d : Deployment)
    (updatedAnnotations : gmap string string) (toRevision : Z) :
  DeploymentRollbacker_Rollback (DeploymentObject d) updatedAnnotations toRevision true
    = simpleDryRun d toRevision.
Proof. done. Qed.
End DeploymentRollback.

(** ** Watching for the outcome of a rollback *)

Section Watch.
Context `{Libraries}.

Lemma isRollbackEvent_done (e : Event) :
  Reason e = RollbackDone → isRollbackEvent e = (true, rollbackSuccess).
Proof.
  intros Hr. unfold isRollbackEvent. simpl.
  repeat (case_bool_decide; try done); congruence.
Qed.

Lemma isRollbackEvent_skipped (e : Event) :
  Reason e = RollbackRevisionNotFound ∨ Reason e = RollbackTemplateUnchanged →
  Reason e ≠ RollbackDone →
  isRollbackEvent e =
    (true, rollbackSkipped +:+ " (" +:+ Reason e +:+ ": " +:+ Message e +:+ ")").
Proof.
  intros Hr Hne. unfold isRollbackEvent. simpl.
  repeat (case_bool_decide; try done); try congruence.
  destruct Hr; congruence.
Qed.

Lemma isRollbackEvent_other (e : Event) :
  otherReason (EventReceived e) → isRollbackEvent e = (false, EmptyString).
Proof.
  intros (e' & [= <-] & H1 & H2 & H3). unfold isRollbackEvent. simpl.
  by rewrite !bool_decide_eq_false_2.
Qed.

(** Events of other reasons are taken from the channel and passed
    over. *)
Lemma watchRollbackEvent_skip (before rest : list Received) :
  Forall otherReason before →
  watchRollbackEvent (before ++ rest) = watchRollbackEvent rest.
Proof.
  induction 1 as [|item before Hitem _ IH]; [done|].
  destruct Hitem as (e & -> & Hother). simpl.
  rewrite isRollbackEvent_other; [done|]. by exists e.
Qed.

(** C8: the watch classifies an event by its reason alone.  Behind
    events of other reasons, which it passes over, an event whose
    reason is the rollback-done one makes it return "rolled back" and
    stop the watch; one whose reason is the revision-not-found or the
    template-unchanged one makes it return the skipped result with the
    reason and the message of the event in it, and stop the watch; what
    follows the event stays in the channel.  When the channel closes
    behind events of other reasons only, the result is empty, and the
    watch is neither stopped nor opened again. *)
Theorem watchRollbackEvent_classifies (before rest : list Received) (e : Event) :
  RollbackRevisionNotFound ≠ RollbackDone →
  RollbackTemplateUnchanged ≠ RollbackDone →
  Forall otherReason before →
  (Reason e = RollbackDone →
     isRollbackEvent e = (true, rollbackSuccess) ∧
     watchRollbackEvent (before ++ EventReceived e :: rest)
       = mkWatched rollbackSuccess 1 rest) ∧
  (Reason e = RollbackRevisionNotFound ∨ Reason e = RollbackTemplateUnchanged →
     let skipped :=
       rollbackSkipped +:+ " (" +:+ Reason e +:+ ": " +:+ Message e +:+ ")" in
     isRollbackEvent e = (true, skipped) ∧
     watchRollbackEvent (before ++ EventReceived e :: rest)
       = mkWatched skipped 1 rest) ∧
  (otherReason (EventReceived e) →
     isRollbackEvent e = (false, EmptyString) ∧
     watchRollbackEvent (before ++ EventReceived e :: rest)
       = watchRollbackEvent rest) ∧
  watchRollbackEvent before = mkWatched EmptyString 0 [].
Proof.
  intros Hnf Hun Hbefore. split; [|split; [|split]].
  - intros Hdone. split; [by apply isRollbackEvent_done|].
    rewrite watchRollbackEvent_skip by done. simpl.
    by rewrite isRollbackEvent_done.
  - intros Hskip skipped.
    assert (Reason e ≠ RollbackDone) as Hne by (destruct Hskip; congruence).
    split; [by apply isRollbackEvent_skipped|].
    rewrite watchRollbackEvent_skip by done. simpl.
    by rewrite isRollbackEvent_skipped.
  - intros Hother. split; [by apply isRollbackEvent_other|].
    rewrite watchRollbackEvent_skip by done. simpl.
    by rewrite isRollbackEvent_other.
  - rewrite <- (app_nil_r before). by rewrite watchRollbackEvent_skip.
Qed.
End Watch.

(** ** Reconstructing a DaemonSet from a snapshot *)

Section Reconstruction.
Context `{Libraries}.

(** One call of [applyDaemonSetHistory]: it allocates the clone at an
    address nothing lived at, writes to that address only, and hands
    back what [applyDaemonSetHistory_value] computes from the base. *)
Lemma applyDaemonSetHistory_clone (heap : gmap positive DaemonSet) (ds : positive)
    (base : DaemonSet) (history : ControllerRevision) :
  heap !! ds = Some base →
  ∃ heap' r,
    applyDaemonSetHistory heap ds history = Some (heap', r) ∧
    heap !! fresh (dom heap) = None ∧
    is_Some (heap' !! fresh (dom heap)) ∧
    (∀ p, p ≠ fresh (dom heap) → heap' !! p = heap !! p) ∧
    (∀ clone, r = Ok clone → clone = fresh (dom heap)) ∧
    outcome heap' r = Some (applyDaemonSetHistory_value base history).
Proof.
  intros Hbase.
  assert (heap !! fresh (dom heap) = None) as Hfresh.
  { apply not_elem_of_dom, is_fresh. }
  unfold applyDaemonSetHistory, DeepCopy, applyDaemonSetHistory_value.
  rewrite Hbase. simpl. rewrite lookup_insert_eq. simpl.
  set (clone := fresh (dom heap)) in *.
  destruct (json_Marshal base) as [cloneBytes|err]; simpl.
  2: { eexists _, _. split; [done|]. split; [done|].
       split; [by rewrite lookup_insert_eq|].
       split; [by intros p Hp; rewrite lookup_insert_ne|]. by split. }
  destruct (StrategicMergePatch cloneBytes (Data_Raw history)) as [patched|err]; simpl.
  2: { eexists _, _. split; [done|]. split; [done|].
       split; [by rewrite lookup_insert_eq|].
       split; [by intros p Hp; rewrite lookup_insert_ne|]. by split. }
  destruct (json_Unmarshal patched base) as [contents [err|]].
  - eexists _, _. split; [done|]. split; [done|].
    split; [by rewrite lookup_insert_eq|].
    split; [by intros p Hp; rewrite !lookup_insert_ne|]. by split.
  - eexists _, _. split; [done|]. split; [done|].
    split; [by rewrite lookup_insert_eq|].
    split; [by intros p Hp; rewrite !lookup_insert_ne|].
    split; [by intros ? [= <-]|]. simpl. by rewrite lookup_insert_eq.
Qed.

(** C4: [applyDaemonSetHistory] never writes to the base DaemonSet it
    is given (nor to any other object that exists when it is called):
    it works on a clone of its own; and a second application of the same
    snapshot to the same base gives a second clone with the same
    contents, or the same error. *)
Theorem applyDaemonSetHistory_preserves_base (heap : gmap positive DaemonSet)
    (ds : positive) (base : DaemonSet) (history : ControllerRevision) :
  heap !! ds = Some base →
  ∃ heap1 r1 heap2 r2,
    applyDaemonSetHistory heap ds history = Some (heap1, r1) ∧
    applyDaemonSetHistory heap1 ds history = Some (heap2, r2) ∧
    preserved heap heap1 ∧ preserved heap1 heap2 ∧
    heap2 !! ds = Some base ∧
    (∀ clone1 clone2, r1 = Ok clone1 → r2 = Ok clone2 →
       clone1 ≠ ds ∧ clone2 ≠ ds ∧ clone1 ≠ clone2) ∧
    outcome heap1 r1 = Some (applyDaemonSetHistory_value base history) ∧
    outcome heap2 r2 = outcome heap1 r1.
Proof.
  intros Hbase.
  destruct (applyDaemonSetHistory_clone heap ds base history Hbase)
    as (heap1 & r1 & Happly1 & Hfresh1 & Hclone1 & Hframe1 & Hr1 & Hout1).
  assert (preserved heap heap1) as Hpres1.
  { intros p contents Hp. rewrite Hframe1; [done|]. congruence. }
  pose proof (Hpres1 _ _ Hbase) as Hbase1.
  destruct (applyDaemonSetHistory_clone heap1 ds base history Hbase1)
    as (heap2 & r2 & Happly2 & Hfresh2 & Hclone2 & Hframe2 & Hr2 & Hout2).
  assert (preserved heap1 heap2) as Hpres2.
  { intros p contents Hp. rewrite Hframe2; [done|]. congruence. }
  exists heap1, r1, heap2, r2.
  split; [done|]. split; [done|]. split; [done|]. split; [done|].
  split; [by apply Hpres2|]. split; [|split; [done | congruence]].
  intros clone1 clone2 ->%Hr1 ->%Hr2.
  split; [congruence|]. split; [congruence|].
  intros Heq. rewrite Heq, Hfresh2 in Hclone1. by destruct Hclone1.
Qed.
End Reconstruction.

(** ** Viewing the history *)

Section ViewHistory.
Context `{Libraries} `{Interface}.

(** The revisions the StatefulSet viewer prints are the revision
    numbers of the history behind as many zeros, sorted. *)
Lemma statefulSetRevisions_perm (history : list ControllerRevision) :
  SortInts64 (statefulSetRevisions history)
    ≡ₚ replicate (length history) 0 ++ (Revision <$> history).
Proof. apply merge_sort_Permutation. Qed.

Lemma statefulSetRevisions_length (history : list ControllerRevision) :
  length (SortInts64 (statefulSetRevisions history)) = (2 * length history)%nat.
Proof.
  rewrite statefulSetRevisions_perm, length_app, length_replicate, length_fmap. lia.
Qed.

(** The text the StatefulSet viewer returns for a non-empty history. *)
Lemma StatefulSetHistoryViewer_rows (namespace name : string) (revision : Z)
    (sts : StatefulSet) (history : list ControllerRevision) :
  result (statefulSetHistory namespace name) = Ok (sts, history) →
  history ≠ [] →
  result (StatefulSetHistoryViewer_ViewHistory namespace name revision)
    = Ok (tabwriter_Flush
            ("REVISION" +:+ LF +:+
             String.concat EmptyString
               ((λ r, fmt_d r +:+ LF)
                  <$> SortInts64 (statefulSetRevisions history)))).
Proof.
  intros Hhist Hne. unfold StatefulSetHistoryViewer_ViewHistory.
  run. rewrite Hhist. run.
  rewrite bool_decide_eq_false_2; [done|].
  destruct history; [done | simpl; lia].
Qed.

(** C9, on the code: for a StatefulSet whose history is the one
    snapshot of revision 1, the viewer writes the header REVISION and
    two rows, 0 and 1; the row 0 is no revision of the history. *)
Theorem StatefulSetHistoryViewer_prints_zero (namespace name : string) (revision : Z)
    (sts : StatefulSet) (h : ControllerRevision) :
  Revision h = 1 →
  result (statefulSetHistory namespace name) = Ok (sts, [h]) →
  result (StatefulSetHistoryViewer_ViewHistory namespace name revision)
    = Ok (tabwriter_Flush ("REVISION" +:+ LF +:+ "0" +:+ LF +:+ "1" +:+ LF)).
Proof.
  intros Hrev Hhist.
  rewrite (StatefulSetHistoryViewer_rows _ _ _ sts [h]) by done.
  unfold statefulSetRevisions. simpl. by rewrite Hrev.
Qed.

Lemma daemonSetHistoryInfo_nil : daemonSetHistoryInfo [] = ∅.
Proof. done. Qed.

(** C10: when the history a viewer resolves is empty, each of the three
    viewers returns "No rollout history found." and no error, also for
    a positive [revision], for which it raises no revision-not-found
    error. *)
Theorem ViewHistory_empty (namespace name : string) (revision : Z) :
  (∀ deployment allOldRSs newRS,
     Deployments_Get namespace name = Ok deployment →
     GetAllReplicaSets deployment = Ok (allOldRSs, newRS) →
     deploymentHistoryInfo (allOldRSs ++ option_list newRS) = ∅ →
     result (DeploymentHistoryViewer_ViewHistory namespace name revision)
       = Ok "No rollout history found.") ∧
  (∀ ds,
     result (daemonSetHistory namespace name) = Ok (ds, []) →
     result (DaemonSetHistoryViewer_ViewHistory namespace name revision)
       = Ok "No rollout history found.") ∧
  (∀ sts,
     result (statefulSetHistory namespace name) = Ok (sts, []) →
     result (StatefulSetHistoryViewer_ViewHistory namespace name revision)
       = Ok "No rollout history found.").
Proof.
  split; [|split].
  - intros deployment allOldRSs newRS Hget Hrs Hempty.
    unfold DeploymentHistoryViewer_ViewHistory.
    run. rewrite Hget. run. rewrite Hrs. run.
    rewrite Hempty. by rewrite map_size_empty.
  - intros ds Hhist. unfold DaemonSetHistoryViewer_ViewHistory.
    run. rewrite Hhist. run.
    rewrite daemonSetHistoryInfo_nil. by rewrite map_size_empty.
  - intros sts Hhist. unfold StatefulSetHistoryViewer_ViewHistory.
    run. by rewrite Hhist.
Qed.
End ViewHistory.

(** ** Selecting a revision, further *)

Lemma findMatching_app (toRevision : Z) (l1 l2 : list ControllerRevision) :
  findMatching toRevision (l1 ++ l2) =
  match findMatching toRevision l1 with
  | Some h => Some h
  | None => findMatching toRevision l2
  end.
Proof.
  induction l1 as [|x l1 IH]; [done|].
  simpl. by case_bool_decide.
Qed.

Lemma findMatching_first (toRevision : Z) (l : list ControllerRevision) h :
  findMatching toRevision l = Some h →
  ∃ pre post, l = pre ++ h :: post ∧ Revision h = toRevision ∧
              ∀ x, x ∈ pre → Revision x ≠ toRevision.
Proof.
  induction l as [|x l IH]; [done|].
  simpl. case_bool_decide as Hx.
  - intros [= <-]. exists [], l. split; [done|]. split; [done|].
    intros y Hy. by apply elem_of_nil in Hy.
  - intros Hfind. destruct (IH Hfind) as (pre & post & -> & Hrev & Hpre).
    exists (x :: pre), post. split; [done|]. split; [done|].
    intros y Hy. apply elem_of_cons in Hy as [-> | Hy]; [done | by apply Hpre].
Qed.

Lemma findMatching_None_iff (toRevision : Z) (l : list ControllerRevision) :
  findMatching toRevision l = None ↔ ∀ h, h ∈ l → Revision h ≠ toRevision.
Proof.
  split.
  - induction l as [|x l IH]; intros Hfind h Hh.
    + by apply elem_of_nil in Hh.
    + simpl in Hfind. case_bool_decide as Hx; [done|].
      apply elem_of_cons in Hh as [-> | Hh]; [done | by apply IH].
  - induction l as [|x l IH]; intros Hno; [done|].
    simpl. rewrite bool_decide_eq_false_2.
    + apply IH. intros h Hh. apply Hno. by right.
    + apply Hno. by left.
Qed.

(** When the revision numbers are pairwise distinct, the snapshot of a
    number is found wherever it stands. *)
Lemma findMatching_NoDup (l : list ControllerRevision) h :
  NoDup (Revision <$> l) → h ∈ l → findMatching (Revision h) l = Some h.
Proof.
  induction l as [|x l IH]; intros Hnodup Hh.
  - by apply elem_of_nil in Hh.
  - simpl in *. apply NoDup_cons in Hnodup as [Hx Hnodup].
    apply elem_of_cons in Hh as [-> | Hh].
    + by rewrite bool_decide_eq_true_2.
    + rewrite bool_decide_eq_false_2; [by apply IH|].
      intros Heq. apply Hx. rewrite Heq. by apply list_elem_of_fmap_2.
Qed.

Section ExplicitRevision.
Context `{Sorter}.

(** For a target other than 0, [findHistory] returns nil exactly when
    no snapshot carries the target, and otherwise the first snapshot of
    the slice that carries it. *)
Theorem findHistory_explicit (toRevision : Z) (allHistory : list ControllerRevision) :
  toRevision ≠ 0 →
  (findHistory toRevision allHistory = None ↔
     ∀ h, h ∈ allHistory → Revision h ≠ toRevision) ∧
  (∀ h, findHistory toRevision allHistory = Some h →
     ∃ pre post, allHistory = pre ++ h :: post ∧ Revision h = toRevision ∧
                 ∀ x, x ∈ pre → Revision x ≠ toRevision).
Proof.
  intros Hne. unfold findHistory.
  rewrite (bool_decide_eq_false_2 (toRevision = 0)) by done. simpl.
  split; [apply findMatching_None_iff | apply findMatching_first].
Qed.

(** What the history viewer of a DaemonSet keeps for a revision number
    is the last snapshot of the slice that carries it. *)
Lemma daemonSetHistoryInfo_from (history : list ControllerRevision)
    (historyInfo : gmap Z ControllerRevision) (r : Z) :
  fold_left (λ historyInfo history, <[Revision history := history]> historyInfo)
    history historyInfo !! r =
  match findMatching r (reverse history) with
  | Some h => Some h
  | None => historyInfo !! r
  end.
Proof.
  revert historyInfo. induction history as [|x history IH]; intros historyInfo; [done|].
  simpl. rewrite IH, reverse_cons, findMatching_app.
  destruct (findMatching r (reverse history)); [done|].
  simpl. case_bool_decide as Hx.
  - subst r. by rewrite lookup_insert_eq.
  - by rewrite lookup_insert_ne.
Qed.

Lemma daemonSetHistoryInfo_lookup (history : list ControllerRevision) (r : Z) :
  daemonSetHistoryInfo history !! r = findMatching r (reverse history).
Proof.
  unfold daemonSetHistoryInfo. rewrite daemonSetHistoryInfo_from.
  by destruct (findMatching r (reverse history)).
Qed.

(** When two snapshots carry the same revision number, the DaemonSet
    viewer shows the last of them: its [historyInfo] at [r] is the last
    snapshot of the slice that carries [r], and none when no snapshot
    carries it. *)
Theorem daemonSetHistoryInfo_last (history : list ControllerRevision) (r : Z) :
  (daemonSetHistoryInfo history !! r = None ↔
     ∀ h, h ∈ history → Revision h ≠ r) ∧
  (∀ h, daemonSetHistoryInfo history !! r = Some h →
     ∃ pre post, history = pre ++ h :: post ∧ Revision h = r ∧
                 ∀ x, x ∈ post → Revision x ≠ r).
Proof.
  rewrite daemonSetHistoryInfo_lookup. split.
  - rewrite findMatching_None_iff. split; intros Hno h Hh; apply Hno.
    + by rewrite elem_of_reverse.
    + by rewrite elem_of_reverse in Hh.
  - intros h Hfind.
    destruct (findMatching_first _ _ _ Hfind) as (pre & post & Hrev & Hr & Hpre).
    exists (reverse post), (reverse pre). split.
    + rewrite <- (reverse_involutive history), Hrev, reverse_app, reverse_cons.
      by rewrite <- app_assoc.
    + split; [done|]. intros x Hx. apply Hpre. by rewrite elem_of_reverse in Hx.
Qed.

Lemma daemonSetHistoryInfo_findHistory (history : list ControllerRevision) (r : Z) :
  NoDup (Revision <$> history) → r ≠ 0 →
  daemonSetHistoryInfo history !! r = findHistory r history.
Proof.
  intros Hnodup Hne. rewrite daemonSetHistoryInfo_lookup.
  unfold findHistory. rewrite (bool_decide_eq_false_2 (r = 0)) by done. simpl.
  destruct (findMatching r history) as [h|] eqn:Hfind.
  - apply findMatching_Some in Hfind as [Hh <-].
    apply findMatching_NoDup; [by rewrite reverse_Permutation|].
    by rewrite elem_of_reverse.
  - apply findMatching_None_iff. intros h Hh. rewrite elem_of_reverse in Hh.
    exact (proj1 (findMatching_None_iff r history) Hfind h Hh).
Qed.

(** When the revision numbers of the history are pairwise distinct, the
    snapshot the DaemonSet viewer shows for a revision other than 0 is
    the snapshot a rollback to that revision selects: both are the one
    snapshot of the history with that number, or none. *)
Theorem viewed_revision_is_rollback_target (history : list ControllerRevision) (r : Z) :
  NoDup (Revision <$> history) → r ≠ 0 →
  daemonSetHistoryInfo history !! r = findHistory r history ∧
  (∀ h, h ∈ history → Revision h = r → findHistory r history = Some h).
Proof.
  intros Hnodup Hne. split; [by apply daemonSetHistoryInfo_findHistory|].
  intros h Hh <-. unfold findHistory.
  rewrite (bool_decide_eq_false_2 (Revision h = 0)) by done. simpl.
  by apply findMatching_NoDup.
Qed.
End ExplicitRevision.

(** For target 0 on two snapshots or more, the revision number of the
    snapshot [findHistory] returns does not depend on how [sort.Sort]
    arranges snapshots of equal revision number, and the snapshot is one
    of the slice. *)
Theorem findHistory_zero_any_sort (S1 S2 : Sorter) (allHistory : list ControllerRevision) :
  (2 ≤ length allHistory)%nat →
  ∃ h1 h2, @findHistory S1 0 allHistory = Some h1 ∧
           @findHistory S2 0 allHistory = Some h2 ∧
           h1 ∈ allHistory ∧ h2 ∈ allHistory ∧
           Revision h1 = Revision h2.
Proof.
  intros Hlen.
  assert (∀ S : Sorter, ∃ h, @findHistory S 0 allHistory = Some h ∧ h ∈ allHistory ∧
            (Revision <$> @sort_Sort S allHistory) !! (length allHistory - 2)%nat
              = Some (Revision h)) as Hone.
  { intros S.
    destruct (@findHistory_zero_sorted S allHistory Hlen) as (pre & h & m & Hs & Hfind).
    exists h. split; [done|]. split.
    - rewrite <- (@sort_Sort_perm S allHistory), Hs.
      apply elem_of_app. right. by left.
    - rewrite @findHistory_zero in Hfind by done.
      by rewrite list_lookup_fmap, Hfind. }
  destruct (Hone S1) as (h1 & Hf1 & Hin1 & Hr1).
  destruct (Hone S2) as (h2 & Hf2 & Hin2 & Hr2).
  exists h1, h2. repeat (split; [done|]).
  assert (Revision <$> @sort_Sort S1 allHistory = Revision <$> @sort_Sort S2 allHistory)
    as Heq.
  { apply (StronglySorted_unique Z.le).
    - apply (StronglySorted_fmap _ byRevision); [done | apply sort_Sort_sorted].
    - apply (StronglySorted_fmap _ byRevision); [done | apply sort_Sort_sorted].
    - by rewrite !sort_Sort_perm. }
  rewrite Heq in Hr1. congruence.
Qed.

(** ** [historiesByRevision] as a [sort.Interface] *)

(** [Less] is a strict weak order: nothing lies below itself, it is
    transitive, and two snapshots neither of which lies below the other
    carry the same revision number, in which case [sort.Sort] may leave
    them in either order. *)
Theorem historiesByRevision_Less_order (a b c : ControllerRevision) :
  Less a a = false ∧
  (Less a b = true → Less b c = true → Less a c = true) ∧
  (Less a b = true → Less b a = false) ∧
  (Less a b = false ∧ Less b a = false ↔ Revision a = Revision b) ∧
  (Less b a = false ↔ byRevision a b).
Proof.
  unfold Less, byRevision.
  rewrite !bool_decide_eq_true, !bool_decide_eq_false. lia.
Qed.

Lemma swap_index_inj (i j : nat) :
  Inj eq eq (λ k : nat, if decide (k = i) then j else if decide (k = j) then i else k).
Proof. intros k1 k2. simpl. repeat case_decide; congruence. Qed.

(** [Swap] at two indices of the slice exchanges the two snapshots and
    leaves the others where they are, so that the slice keeps its length
    and its snapshots; at an index out of range it panics. *)
Theorem historiesByRevision_Swap_exchanges (h : list ControllerRevision) (i j : nat) :
  ((i < length h)%nat → (j < length h)%nat →
     ∃ h', historiesByRevision_Swap h i j = Some h' ∧
           historiesByRevision_Len h' = historiesByRevision_Len h ∧
           h' !! i = h !! j ∧ h' !! j = h !! i ∧
           (∀ k, k ≠ i → k ≠ j → h' !! k = h !! k) ∧
           h' ≡ₚ h) ∧
  ((length h ≤ i)%nat ∨ (length h ≤ j)%nat → historiesByRevision_Swap h i j = None).
Proof.
  split.
  - intros Hi Hj.
    destruct (lookup_lt_is_Some_2 h i Hi) as [hi Hhi].
    destruct (lookup_lt_is_Some_2 h j Hj) as [hj Hhj].
    unfold historiesByRevision_Swap, historiesByRevision_Len.
    rewrite Hhi, Hhj. simpl. eexists. split; [done|].
    assert (∀ k, (<[j:=hi]> (<[i:=hj]> h)) !! k =
                 h !! (if decide (k = i) then j else if decide (k = j) then i else k))
      as Hlookup.
    { intros k. destruct (decide (k = j)) as [->|Hkj].
      - rewrite list_lookup_insert_eq by (by rewrite length_insert).
        destruct (decide (j = i)) as [->|]; [congruence | done].
      - rewrite list_lookup_insert_ne by done.
        destruct (decide (k = i)) as [->|Hki].
        + by rewrite list_lookup_insert_eq.
        + by rewrite list_lookup_insert_ne. }
    split; [by rewrite !length_insert|].
    split. { rewrite Hlookup. by rewrite decide_True. }
    split. { rewrite Hlookup. destruct (decide (j = i)) as [->|]; [done|].
             by rewrite decide_True. }
    split. { intros k Hki Hkj. rewrite Hlookup. by rewrite !decide_False. }
    apply Permutation_inj. split; [by rewrite !length_insert|].
    eexists. split; [apply (swap_index_inj i j) | exact Hlookup].
  - intros Hout. unfold historiesByRevision_Swap.
    destruct Hout as [Hi | Hj].
    + by rewrite (lookup_ge_None_2 h i).
    + rewrite (lookup_ge_None_2 h j) by done. by destruct (h !! i).
Qed.

(** ** The revisions of a map, in order *)

Lemma StronglySorted_le_lt (l : list Z) :
  StronglySorted Z.le l → NoDup l → StronglySorted Z.lt l.
Proof.
  induction 1 as [|k l Hl IH Hk]; intros Hnodup; [constructor|].
  apply NoDup_cons in Hnodup as [Hnotin Hnodup].
  constructor; [by apply IH|].
  apply Forall_forall. intros x Hx.
  rewrite Forall_forall in Hk. specialize (Hk x Hx).
  assert (x ≠ k) by (by intros ->). lia.
Qed.

Section SortedKeys.
Context {A : Type} (m : gmap Z A).

Lemma sortedKeys_elem (r : Z) :
  r ∈ SortInts64 (map_to_list m).*1 ↔ is_Some (m !! r).
Proof.
  unfold SortInts64. rewrite merge_sort_Permutation, list_elem_of_fmap. split.
  - intros ([k x] & -> & Hin). apply elem_of_map_to_list in Hin. by exists x.
  - intros [x Hx]. exists (r, x). split; [done|]. by apply elem_of_map_to_list.
Qed.

Lemma sortedKeys_length : length (SortInts64 (map_to_list m).*1) = size m.
Proof.
  unfold SortInts64.
  by rewrite merge_sort_Permutation, length_fmap, length_map_to_list.
Qed.

Lemma sortedKeys_ascending : StronglySorted Z.lt (SortInts64 (map_to_list m).*1).
Proof.
  apply StronglySorted_le_lt.
  - apply (StronglySorted_merge_sort Z.le).
  - unfold SortInts64. rewrite merge_sort_Permutation. apply NoDup_fst_map_to_list.
Qed.

(** With two keys or more, the sorted keys end in the second-largest
    and the largest key. *)
Lemma sortedKeys_last_two :
  (2 ≤ size m)%nat →
  ∃ pre r mx, SortInts64 (map_to_list m).*1 = pre ++ [r; mx] ∧
              r < mx ∧ ∀ k, k ∈ pre → k < r.
Proof.
  intros Hsize.
  destruct (last_two (SortInts64 (map_to_list m).*1)) as (pre & r & mx & Hkeys).
  { by rewrite sortedKeys_length. }
  exists pre, r, mx. split; [done|].
  pose proof sortedKeys_ascending as Hsorted. rewrite Hkeys in Hsorted.
  apply StronglySorted_app in Hsorted as (Hpre & _ & Hlast).
  apply StronglySorted_cons in Hlast as [Hlast _].
  rewrite Forall_singleton in Hlast. split; [done|].
  intros k Hk. apply (Hpre k r); [done | by left].
Qed.
End SortedKeys.

(** ** The dry run of a Deployment rollback *)

Section DeploymentDryRun.
Context `{Libraries} `{Interface}.

Lemma revision_maps_from (allRSs : list ReplicaSet)
    (revisionToSpec historyInfo : gmap Z PodTemplateSpec) :
  (∀ k, option_Forall2 (λ t t', Template_Spec t = Template_Spec t')
          (revisionToSpec !! k) (historyInfo !! k)) →
  ∀ k, option_Forall2 (λ t t', Template_Spec t = Template_Spec t')
         (fold_left (λ revisionToSpec rs,
            match deploymentutil_Revision rs with
            | Err _ => revisionToSpec
            | Ok v => <[v := Template_of_rs rs]> revisionToSpec
            end) allRSs revisionToSpec !! k)
         (fold_left (λ historyInfo rs,
            match deploymentutil_Revision rs with
            | Err _ => historyInfo
            | Ok v =>
                let changeCause := getChangeCause (ReplicaSetObject rs) in
                let template := Template_of_rs rs in
                let template :=
                  if bool_decide (0 < String.length changeCause)%nat then
                    mkPodTemplateSpec
                      (<[ChangeCauseAnnotation := changeCause]>
                         (Template_Annotations template))
                      (Template_Spec template)
                  else template in
                <[v := template]> historyInfo
            end) allRSs historyInfo !! k).
Proof.
  revert revisionToSpec historyInfo.
  induction allRSs as [|rs allRSs IH]; intros revisionToSpec historyInfo Hrel; [done|].
  simpl. apply IH. intros k.
  destruct (deploymentutil_Revision rs) as [v|]; [|done].
  destruct (decide (v = k)) as [->|Hne].
  - rewrite !lookup_insert_eq. constructor. by case_bool_decide.
  - by rewrite !lookup_insert_ne.
Qed.

Lemma revisionToSpecOf_from (allRSs : list ReplicaSet)
    (revisionToSpec : gmap Z PodTemplateSpec) (k : Z) :
  is_Some (fold_left (λ revisionToSpec rs,
             match deploymentutil_Revision rs with
             | Err _ => revisionToSpec
             | Ok v => <[v := Template_of_rs rs]> revisionToSpec
             end) allRSs revisionToSpec !! k) ↔
  is_Some (revisionToSpec !! k) ∨
  ∃ rs, rs ∈ allRSs ∧ deploymentutil_Revision rs = Ok k.
Proof.
  revert revisionToSpec.
  induction allRSs as [|rs allRSs IH]; intros revisionToSpec; simpl.
  - split; [by left|]. intros [Hk | (rs & Hrs & _)]; [done|].
    by apply elem_of_nil in Hrs.
  - rewrite IH. split.
    + intros [Hk | (rs' & Hrs' & Hrev)].
      * destruct (deploymentutil_Revision rs) as [v|] eqn:Hv; [|by left].
        destruct (decide (v = k)) as [->|Hne].
        -- right. exists rs. split; [by left | done].
        -- left. by rewrite lookup_insert_ne in Hk.
      * right. exists rs'. split; [by right | done].
    + intros [Hk | (rs' & Hrs' & Hrev)].
      * left. destruct (deploymentutil_Revision rs) as [v|]; [|done].
        destruct (decide (v = k)) as [->|Hne].
        -- by rewrite lookup_insert_eq.
        -- by rewrite lookup_insert_ne.
      * apply elem_of_cons in Hrs' as [-> | Hrs'].
        -- left. rewrite Hrev. by rewrite lookup_insert_eq.
        -- right. by exists rs'.
Qed.

Lemma revisionToSpecOf_keys (allRSs : list ReplicaSet) (k : Z) :
  is_Some (revisionToSpecOf allRSs !! k) ↔
  ∃ rs, rs ∈ allRSs ∧ deploymentutil_Revision rs = Ok k.
Proof.
  unfold revisionToSpecOf. rewrite revisionToSpecOf_from, lookup_empty.
  split; [|by right]. intros [Hnone | Hrs]; [by apply is_Some_None in Hnone | done].
Qed.

Lemma revision_maps_related (allRSs : list ReplicaSet) (k : Z) :
  option_Forall2 (λ t t', Template_Spec t = Template_Spec t')
    (revisionToSpecOf allRSs !! k) (deploymentHistoryInfo allRSs !! k).
Proof.
  apply revision_maps_from. intros k'. rewrite !lookup_empty. constructor.
Qed.

Lemma deploymentHistoryInfo_keys (allRSs : list ReplicaSet) (k : Z) :
  is_Some (deploymentHistoryInfo allRSs !! k) ↔
  ∃ rs, rs ∈ allRSs ∧ deploymentutil_Revision rs = Ok k.
Proof.
  rewrite <- revisionToSpecOf_keys.
  destruct (revision_maps_related allRSs k); split; intros Hsome; done.
Qed.

(** The revisions [simpleDryRun] and the Deployment viewer find are the
    same, those of the replica sets whose revision parses, and for each
    of them the two hold the same pod specification; the viewer's copy
    differs by the change-cause annotation only. *)
Theorem deployment_revisions_agree (allRSs : list ReplicaSet) (k : Z) :
  (is_Some (revisionToSpecOf allRSs !! k) ↔
     ∃ rs, rs ∈ allRSs ∧ deploymentutil_Revision rs = Ok k) ∧
  (is_Some (deploymentHistoryInfo allRSs !! k) ↔
     is_Some (revisionToSpecOf allRSs !! k)) ∧
  (∀ t t', revisionToSpecOf allRSs !! k = Some t →
           deploymentHistoryInfo allRSs !! k = Some t' →
           Template_Spec t = Template_Spec t').
Proof.
  pose proof (revision_maps_related allRSs k) as Hrel.
  split; [apply revisionToSpecOf_keys|]. split.
  - by rewrite deploymentHistoryInfo_keys, revisionToSpecOf_keys.
  - intros t t' Ht Ht'. rewrite Ht, Ht' in Hrel. by inversion Hrel.
Qed.

(** With fewer than two revisions among the replica sets, a dry run of
    a Deployment rollback fails for want of a rollout history, whatever
    the target, also a revision that exists. *)
Theorem simpleDryRun_needs_two_revisions (deployment externalDeployment : Deployment)
    (toRevision : Z) (allOldRSs : list ReplicaSet) (newRS : option ReplicaSet) :
  Scheme_Convert deployment = Ok externalDeployment →
  GetAllReplicaSets externalDeployment = Ok (allOldRSs, newRS) →
  (size (revisionToSpecOf (allOldRSs ++ option_list newRS)) < 2)%nat →
  result (simpleDryRun deployment toRevision)
    = Err ("no rollout history found for deployment "
             +:+ fmt_q (Name (ObjectMeta_of_deployment deployment))).
Proof.
  intros Hconv Hrs Hsize. unfold simpleDryRun. cbv zeta.
  run. rewrite Hconv. run. rewrite Hrs. run.
  by rewrite bool_decide_eq_true_2.
Qed.

(** With two revisions or more, a dry run to a positive target fails
    with the revision-not-found error when no replica set carries the
    target, and otherwise returns the description of the pod template of
    that revision, with nothing in front of it. *)
Theorem simpleDryRun_explicit (deployment externalDeployment : Deployment)
    (toRevision : Z) (allOldRSs : list ReplicaSet) (newRS : option ReplicaSet) :
  Scheme_Convert deployment = Ok externalDeployment →
  GetAllReplicaSets externalDeployment = Ok (allOldRSs, newRS) →
  (2 ≤ size (revisionToSpecOf (allOldRSs ++ option_list newRS)))%nat →
  0 < toRevision →
  ((∀ rs, rs ∈ allOldRSs ++ option_list newRS →
          deploymentutil_Revision rs ≠ Ok toRevision) →
     result (simpleDryRun deployment toRevision) = Err (revisionNotFoundErr toRevision)) ∧
  (∀ template,
     revisionToSpecOf (allOldRSs ++ option_list newRS) !! toRevision = Some template →
     result (simpleDryRun deployment toRevision) = printTemplate template).
Proof.
  intros Hconv Hrs Hsize Hpos.
  assert (result (simpleDryRun deployment toRevision) =
          match revisionToSpecOf (allOldRSs ++ option_list newRS) !! toRevision with
          | None => Err (revisionNotFoundErr toRevision)
          | Some template => printTemplate template
          end) as Hrun.
  { unfold simpleDryRun. cbv zeta.
    run. rewrite Hconv. run. rewrite Hrs. run.
    rewrite bool_decide_eq_false_2 by lia.
    rewrite (bool_decide_eq_true_2 (0 < toRevision)) by done.
    destruct (revisionToSpecOf _ !! toRevision) as [template|]; [|done].
    run. unfold printTemplate.
    by destruct (Convert_v1_PodTemplateSpec_To_api_PodTemplateSpec template). }
  split.
  - intros Hno. rewrite Hrun.
    destruct (revisionToSpecOf _ !! toRevision) as [template|] eqn:Hk; [|done].
    destruct (proj1 (revisionToSpecOf_keys _ toRevision) (mk_is_Some _ _ Hk))
      as (rs & Hin & Hrev).
    by destruct (Hno rs Hin).
  - intros template Hk. by rewrite Hrun, Hk.
Qed.

(** With two revisions or more, a dry run to target 0, or to a negative
    target, previews the revision just below the largest one: it returns
    a line feed and the description of that pod template, and never
    dereferences a missing entry. *)
Theorem simpleDryRun_previous (deployment externalDeployment : Deployment)
    (toRevision : Z) (allOldRSs : list ReplicaSet) (newRS : option ReplicaSet) :
  Scheme_Convert deployment = Ok externalDeployment →
  GetAllReplicaSets externalDeployment = Ok (allOldRSs, newRS) →
  (2 ≤ size (revisionToSpecOf (allOldRSs ++ option_list newRS)))%nat →
  toRevision ≤ 0 →
  ∃ r mx template,
    revisionToSpecOf (allOldRSs ++ option_list newRS) !! r = Some template ∧
    is_Some (revisionToSpecOf (allOldRSs ++ option_list newRS) !! mx) ∧
    r < mx ∧
    (∀ k, is_Some (revisionToSpecOf (allOldRSs ++ option_list newRS) !! k) →
          k ≤ mx ∧ (k < mx → k ≤ r)) ∧
    result (simpleDryRun deployment toRevision)
      = match Convert_v1_PodTemplateSpec_To_api_PodTemplateSpec template with
        | Ok internalTemplate => Ok (LF +:+ DescribePodTemplate internalTemplate)
        | Err err => Err ("failed to convert podtemplate, " +:+ err)
        end.
Proof.
  intros Hconv Hrs Hsize Hnonpos.
  set (revisionToSpec := revisionToSpecOf (allOldRSs ++ option_list newRS)) in *.
  destruct (sortedKeys_last_two revisionToSpec Hsize) as (pre & r & mx & Hkeys & Hlt & Hpre).
  assert (∀ k, is_Some (revisionToSpec !! k) ↔ k ∈ pre ∨ k = r ∨ k = mx) as Hdom.
  { intros k. rewrite <- sortedKeys_elem, Hkeys, elem_of_app, !elem_of_cons, elem_of_nil.
    tauto. }
  destruct (proj2 (Hdom r)) as [template Hr]; [tauto|].
  exists r, mx, template. split; [done|]. split; [apply Hdom; tauto|].
  split; [done|]. split.
  { intros k [Hk | [-> | ->]]%Hdom; [|lia..]. specialize (Hpre k Hk). lia. }
  unfold simpleDryRun. cbv zeta.
  run. rewrite Hconv. run. rewrite Hrs. run.
  fold revisionToSpec.
  rewrite bool_decide_eq_false_2 by lia.
  rewrite (bool_decide_eq_false_2 (0 < toRevision)) by lia.
  rewrite Hkeys, lookup_last_two. simpl. rewrite Hr.
  run. by destruct (Convert_v1_PodTemplateSpec_To_api_PodTemplateSpec template).
Qed.
End DeploymentDryRun.

(** ** Resolving the history of a workload *)

Section HistoryLookup.
Context `{Libraries} `{Interface}.

(** When [daemonSetHistory] or [statefulSetHistory] succeeds, it has
    sent one Get and one List and nothing else, and the history it
    returns is made of the listed snapshots that the workload controls,
    in the order of the list.  The DaemonSet variant lists in the
    namespace of the object it fetched, the StatefulSet variant in the
    namespace it was asked for. *)
Theorem history_is_controlled (namespace name : string)
    (history : list ControllerRevision) :
  (∀ ds, result (daemonSetHistory namespace name) = Ok (ds, history) →
     ∃ selector accessor listed,
       DaemonSets_Get namespace name = Ok ds ∧
       LabelSelectorAsSelector (Selector_of_ds ds) = Ok selector ∧
       Accessor (DaemonSetObject ds) = Ok accessor ∧
       ControllerRevisions_List (Namespace (ObjectMeta_of_ds ds)) selector = Ok listed ∧
       history = filter (λ h, IsControlledBy h accessor = true) listed ∧
       trace (daemonSetHistory namespace name)
         = [GetDaemonSet namespace name;
            ListControllerRevisions (Namespace (ObjectMeta_of_ds ds)) selector]) ∧
  (∀ sts, result (statefulSetHistory namespace name) = Ok (sts, history) →
     ∃ selector accessor listed,
       StatefulSets_Get namespace name = Ok sts ∧
       LabelSelectorAsSelector (Selector_of_sts sts) = Ok selector ∧
       Accessor (StatefulSetObject sts) = Ok accessor ∧
       ControllerRevisions_List namespace selector = Ok listed ∧
       history = filter (λ h, IsControlledBy h accessor = true) listed ∧
       trace (statefulSetHistory namespace name)
         = [GetStatefulSet namespace name; ListControllerRevisions namespace selector]).
Proof.
  split.
  - intros ds. unfold daemonSetHistory, controlledHistory. run.
    destruct (DaemonSets_Get namespace name) as [ds'|]; [|done]. run.
    destruct (LabelSelectorAsSelector _) as [selector|] eqn:Hsel; [|done]. run.
    destruct (Accessor _) as [accessor|] eqn:Hacc; [|done]. run.
    unfold wrapM. cbn [fst snd]. fold (@trace (list ControllerRevision)).
    fold (@result (list ControllerRevision)). run.
    destruct (ControllerRevisions_List _ selector) as [listed|] eqn:Hlist; [|done]. run.
    intros [= <- <-]. by exists selector, accessor, listed.
  - intros sts. unfold statefulSetHistory, controlledHistory. run.
    destruct (StatefulSets_Get namespace name) as [sts'|]; [|done]. run.
    destruct (LabelSelectorAsSelector _) as [selector|] eqn:Hsel; [|done]. run.
    destruct (Accessor _) as [accessor|] eqn:Hacc; [|done]. run.
    unfold wrapM. cbn [fst snd]. fold (@trace (list ControllerRevision)).
    fold (@result (list ControllerRevision)). run.
    destruct (ControllerRevisions_List _ selector) as [listed|] eqn:Hlist; [|done]. run.
    intros [= <- <-]. by exists selector, accessor, listed.
Qed.
End HistoryLookup.

(** ** Requests that change an object *)

Lemma mutatingCalls_app (t1 t2 : list Call) :
  mutatingCalls (t1 ++ t2) = mutatingCalls t1 ++ mutatingCalls t2.
Proof. apply filter_app. Qed.

Lemma mutatingCalls_reads (t : list Call) : noMutation t → mutatingCalls t = [].
Proof.
  induction 1 as [|c t Hc _ IH]; [done|].
  unfold mutatingCalls in *. rewrite filter_cons_False; [done|]. by rewrite Hc.
Qed.

Lemma mutatingCalls_bind_reads {A B} (f : A → M B) (m : M A) (n : nat) :
  noMutation (trace m) →
  (∀ a, result m = Ok a → (length (mutatingCalls (trace (f a))) ≤ n)%nat) →
  (length (mutatingCalls (trace (m ≫= f))) ≤ n)%nat.
Proof.
  intros Hm Hf. rewrite trace_bind, mutatingCalls_app, (mutatingCalls_reads _ Hm).
  simpl. destruct (result m); [by apply Hf | simpl; lia].
Qed.

Lemma mutatingCalls_bind_last {A B} (f : A → M B) (m : M A) (n : nat) :
  (length (mutatingCalls (trace m)) ≤ n)%nat →
  (∀ a, result m = Ok a → noMutation (trace (f a))) →
  (length (mutatingCalls (trace (m ≫= f))) ≤ n)%nat.
Proof.
  intros Hm Hf. rewrite trace_bind, mutatingCalls_app, length_app.
  destruct (result m) as [a|].
  - rewrite (mutatingCalls_reads (trace (f a))) by (by apply Hf). simpl. lia.
  - simpl. lia.
Qed.

Lemma mutatingCalls_one_reads {A} (m : M A) :
  noMutation (trace m) → (length (mutatingCalls (trace m)) ≤ 1)%nat.
Proof. intros Hm. rewrite mutatingCalls_reads by done. simpl. lia. Qed.

Lemma mutatingCalls_one_call {A} (c : Call) (answer : Result A) :
  (length (mutatingCalls (trace (call c answer))) ≤ 1)%nat.
Proof.
  rewrite trace_call. unfold mutatingCalls.
  destruct (mutating c) eqn:Hc.
  - by rewrite filter_cons_True.
  - rewrite filter_cons_False by (by rewrite Hc). simpl. lia.
Qed.

(** Walks down a chain of binds of which one request at most changes an
    object. *)
Ltac at_most_one :=
  repeat first
    [ apply mutatingCalls_one_reads; solve [reads]
    | apply mutatingCalls_one_call
    | apply mutatingCalls_bind_reads; [solve [reads] | intros ? _]
    | apply mutatingCalls_bind_last; [| intros ? _; solve [reads]]
    | match goal with
      | |- context [let '(_, _) := ?p in _] => destruct p
      | |- context [if ?b then _ else _] => destruct b
      | |- context [match ?o with Some _ => _ | None => _ end] => destruct o
      end ].

Section Mutations.
Context `{Sorter} `{Libraries} `{Interface}.

(** Whatever the rollbacker, the object, the target and the answers of
    the server, one call of [Rollback] sends at most one request that
    changes an object. *)
Theorem Rollback_mutates_at_most_once (r : Rollbacker) (obj : Object)
    (updatedAnnotations : gmap string string) (toRevision : Z) (dryRun : bool) :
  (length (mutatingCalls
             (trace (Rollback r obj updatedAnnotations toRevision dryRun))) ≤ 1)%nat.
Proof.
  destruct r; simpl.
  - unfold DeploymentRollbacker_Rollback.
    destruct obj; try (apply mutatingCalls_one_reads; solve [reads]).
    destruct dryRun; [apply mutatingCalls_one_reads, simpleDryRun_reads|].
    destruct (Paused d); [apply mutatingCalls_one_reads; solve [reads]|].
    cbv zeta. at_most_one.
  - unfold DaemonSetRollbacker_Rollback. at_most_one.
  - unfold StatefulSetRollbacker_Rollback. cbv zeta. at_most_one.
Qed.

(** A real rollback of a DaemonSet or a StatefulSet whose selected
    snapshot differs from the live template sends one request that
    changes an object: the patch of the workload with the raw data of the
    snapshot.  It returns "rolled back" when the patch goes through and
    the error of the patch, behind "failed restoring revision", when it
    does not.  The DaemonSet is patched under the name of the object
    passed in, the StatefulSet under the name of the object fetched. *)
Theorem rollback_patches_snapshot (obj : Object)
    (updatedAnnotations : gmap string string) (toRevision : Z)
    (history : list ControllerRevision) (toHistory : ControllerRevision)
    (accessor : ObjectMeta) :
  0 ≤ toRevision →
  Accessor obj = Ok accessor →
  findHistory toRevision history = Some toHistory →
  (∀ ds,
     result (daemonSetHistory (Namespace accessor) (Name accessor)) = Ok (ds, history) →
     daemon_Match ds toHistory = Ok false →
     let rollback := DaemonSetRollbacker_Rollback obj updatedAnnotations toRevision false in
     mutatingCalls (trace rollback)
       = [PatchDaemonSet (Namespace accessor) (Name accessor) (Data_Raw toHistory)] ∧
     result rollback
       = match DaemonSets_Patch (Namespace accessor) (Name accessor)
                 (Data_Raw toHistory) with
         | Ok _ => Ok rollbackSuccess
         | Err err =>
             Err ("failed restoring revision " +:+ fmt_d toRevision +:+ ": " +:+ err)
         end) ∧
  (∀ sts,
     result (statefulSetHistory (Namespace accessor) (Name accessor)) = Ok (sts, history) →
     statefulset_Match sts toHistory = Ok false →
     let rollback := StatefulSetRollbacker_Rollback obj updatedAnnotations toRevision false in
     mutatingCalls (trace rollback)
       = [PatchStatefulSet (Namespace (ObjectMeta_of_sts sts))
            (Name (ObjectMeta_of_sts sts)) (Data_Raw toHistory)] ∧
     result rollback
       = match StatefulSets_Patch (Namespace (ObjectMeta_of_sts sts))
                 (Name (ObjectMeta_of_sts sts)) (Data_Raw toHistory) with
         | Ok _ => Ok rollbackSuccess
         | Err err =>
             Err ("failed restoring revision " +:+ fmt_d toRevision +:+ ": " +:+ err)
         end).
Proof.
  intros Hpos Hacc Hfind.
  pose proof (findHistory_Some_guard _ _ _ Hfind) as Hguard.
  split.
  - intros ds Hhist Hmatch rollback. subst rollback.
    unfold DaemonSetRollbacker_Rollback.
    rewrite (bool_decide_eq_false_2 (toRevision < 0)) by lia.
    rewrite Hacc. run. rewrite Hhist. run.
    rewrite Hguard, Hfind. run. rewrite Hmatch. run.
    split.
    + rewrite !mutatingCalls_app.
      rewrite (mutatingCalls_reads _ (daemonSetHistory_reads _ _)).
      by destruct (DaemonSets_Patch _ _ _).
    + by destruct (DaemonSets_Patch _ _ _).
  - intros sts Hhist Hmatch rollback. subst rollback.
    unfold StatefulSetRollbacker_Rollback.
    rewrite (bool_decide_eq_false_2 (toRevision < 0)) by lia.
    rewrite Hacc. run. rewrite Hhist. run.
    rewrite Hguard, Hfind. run. rewrite Hmatch. run. cbv zeta. run.
    split.
    + rewrite !mutatingCalls_app.
      rewrite (mutatingCalls_reads _ (statefulSetHistory_reads _ _)).
      by destruct (StatefulSets_Patch _ _ _).
    + by destruct (StatefulSets_Patch _ _ _).
Qed.

(** A DaemonSet or StatefulSet rollback to a target that is not
    negative returns the error of the accessor, behind "failed to create
    accessor for kind", before any request when the object has no
    metadata, and returns the error of the history lookup as it is, with
    no request that changes an object, when the history cannot be
    fetched. *)
Theorem rollback_fails_before_selection (obj : Object)
    (updatedAnnotations : gmap string string) (toRevision : Z) (dryRun : bool) :
  0 ≤ toRevision →
  (∀ err, Accessor obj = Err err →
     let failure : M string :=
       ([], Err ("failed to create accessor for kind "
                   +:+ fmt_ObjectKind obj +:+ ": " +:+ err)) in
     DaemonSetRollbacker_Rollback obj updatedAnnotations toRevision dryRun = failure ∧
     StatefulSetRollbacker_Rollback obj updatedAnnotations toRevision dryRun = failure) ∧
  (∀ accessor err, Accessor obj = Ok accessor →
     (result (daemonSetHistory (Namespace accessor) (Name accessor)) = Err err →
        let rollback :=
          DaemonSetRollbacker_Rollback obj updatedAnnotations toRevision dryRun in
        result rollback = Err err ∧ noMutation (trace rollback)) ∧
     (result (statefulSetHistory (Namespace accessor) (Name accessor)) = Err err →
        let rollback :=
          StatefulSetRollbacker_Rollback obj updatedAnnotations toRevision dryRun in
        result rollback = Err err ∧ noMutation (trace rollback))).
Proof.
  intros Hpos. split.
  - intros err Hacc failure. subst failure.
    unfold DaemonSetRollbacker_Rollback, StatefulSetRollbacker_Rollback.
    rewrite (bool_decide_eq_false_2 (toRevision < 0)) by lia.
    by rewrite Hacc.
  - intros accessor err Hacc. split.
    + intros Hhist rollback. subst rollback.
      unfold DaemonSetRollbacker_Rollback.
      rewrite (bool_decide_eq_false_2 (toRevision < 0)) by lia.
      rewrite Hacc. run. rewrite Hhist. run. split; [done|].
      rewrite app_nil_r. apply daemonSetHistory_reads.
    + intros Hhist rollback. subst rollback.
      unfold StatefulSetRollbacker_Rollback.
      rewrite (bool_decide_eq_false_2 (toRevision < 0)) by lia.
      rewrite Hacc. run. rewrite Hhist. run. split; [done|].
      rewrite app_nil_r. apply statefulSetHistory_reads.
Qed.
End Mutations.

(** ** The requests of a Deployment rollback *)

Section DeploymentRequests.
Context `{Libraries} `{Interface}.

(** A real rollback of a Deployment that is not paused lists the events
    of the namespace, then sends the rollback request, which carries the
    name of the deployment, the annotations and the target as they were
    passed in, then watches the events from the resource version of the
    list.  The first request that fails ends the call with its error as
    it is; the rollback request is not sent when the list fails, and the
    watch is not opened when the rollback request fails.  When the three
    go through, the call returns what the watch finds. *)
Theorem DeploymentRollbacker_requests (d : Deployment)
    (updatedAnnotations : gmap string string) (toRevision : Z) :
  Paused d = false →
  let namespace := Namespace (ObjectMeta_of_deployment d) in
  let request :=
    mkDeploymentRollback (Name (ObjectMeta_of_deployment d)) updatedAnnotations
      toRevision in
  let rollback :=
    DeploymentRollbacker_Rollback (DeploymentObject d) updatedAnnotations toRevision
      false in
  match Events_List namespace with
  | Err err => rollback = ([ListEvents namespace], Err err)
  | Ok resourceVersion =>
      match Deployments_Rollback namespace request with
      | Err err =>
          rollback = ([ListEvents namespace; RollbackDeployment namespace request],
                      Err err)
      | Ok _ =>
          match Events_Watch namespace resourceVersion with
          | Err err =>
              rollback = ([ListEvents namespace; RollbackDeployment namespace request;
                           WatchEvents namespace resourceVersion], Err err)
          | Ok events =>
              rollback = ([ListEvents namespace; RollbackDeployment namespace request;
                           WatchEvents namespace resourceVersion],
                          Ok (watched_result (watchRollbackEvent events)))
          end
      end
  end.
Proof.
  intros Hpaused namespace request rollback. subst rollback.
  unfold DeploymentRollbacker_Rollback. rewrite Hpaused. cbv zeta.
  fold namespace request.
  unfold mbind, M_bind, call, mret, M_ret.
  destruct (Events_List namespace) as [resourceVersion|]; [|done].
  destruct (Deployments_Rollback namespace request) as [[]|]; [|done].
  by destruct (Events_Watch namespace resourceVersion).
Qed.

(** When the events that follow a real rollback of a Deployment that is
    not paused are events of other reasons and then the rollback-done
    event, the call returns "rolled back"; when they are events of other
    reasons and then a revision-not-found or template-unchanged event,
    it returns the skipped result with the reason and the message of that
    event. *)
Theorem DeploymentRollbacker_outcome (d : Deployment)
    (updatedAnnotations : gmap string string) (toRevision : Z)
    (resourceVersion : string) (before rest : list Received) (e : Event) :
  Paused d = false →
  Events_List (Namespace (ObjectMeta_of_deployment d)) = Ok resourceVersion →
  Deployments_Rollback (Namespace (ObjectMeta_of_deployment d))
    (mkDeploymentRollback (Name (ObjectMeta_of_deployment d)) updatedAnnotations
       toRevision) = Ok () →
  Events_Watch (Namespace (ObjectMeta_of_deployment d)) resourceVersion
    = Ok (before ++ EventReceived e :: rest) →
  Forall otherReason before →
  let rollback :=
    DeploymentRollbacker_Rollback (DeploymentObject d) updatedAnnotations toRevision
      false in
  (Reason e = RollbackDone → result rollback = Ok rollbackSuccess) ∧
  (Reason e ≠ RollbackDone →
   Reason e = RollbackRevisionNotFound ∨ Reason e = RollbackTemplateUnchanged →
   result rollback
     = Ok (rollbackSkipped +:+ " (" +:+ Reason e +:+ ": " +:+ Message e +:+ ")")).
Proof.
  intros Hpaused Hlist Hrollback Hwatch Hbefore rollback.
  pose proof (DeploymentRollbacker_requests d updatedAnnotations toRevision Hpaused)
    as Hrequests.
  cbv zeta in Hrequests. rewrite Hlist, Hrollback, Hwatch in Hrequests.
  subst rollback. rewrite Hrequests. unfold result. cbn [snd].
  rewrite watchRollbackEvent_skip by done. simpl. split.
  - intros Hdone. by rewrite isRollbackEvent_done.
  - intros Hne Hskip. by rewrite isRollbackEvent_skipped.
Qed.
End DeploymentRequests.

(** ** The watch, further *)

Section WatchSignals.
Context `{Libraries}.

Lemma isRollbackEvent_result (e : Event) :
  isRollbackEvent e = (false, EmptyString) ∨
  (isRollbackEvent e = (true, rollbackSuccess) ∧ Reason e = RollbackDone) ∨
  (isRollbackEvent e
     = (true, rollbackSkipped +:+ " (" +:+ Reason e +:+ ": " +:+ Message e +:+ ")") ∧
   Reason e ≠ RollbackDone ∧
   (Reason e = RollbackRevisionNotFound ∨ Reason e = RollbackTemplateUnchanged)).
Proof.
  destruct (decide (Reason e = RollbackDone)) as [Hdone | Hne].
  { right. left. split; [by apply isRollbackEvent_done | done]. }
  destruct (decide (Reason e = RollbackRevisionNotFound)) as [Hnf | Hnf].
  { right. right. split; [apply isRollbackEvent_skipped; auto | auto]. }
  destruct (decide (Reason e = RollbackTemplateUnchanged)) as [Hun | Hun].
  { right. right. split; [apply isRollbackEvent_skipped; auto | auto]. }
  left. apply isRollbackEvent_other. by exists e.
Qed.

(** A signal does not end the watch: the loop stops the watcher and
    goes on receiving, so that the watch returns what it would return
    had no signal arrived, and leaves in the channel what it would leave;
    it calls [Stop] once for each signal it receives, and once more when
    it returns on an event. *)
Theorem watchRollbackEvent_ignores_signals (w : list Received) :
  watched_result (watchRollbackEvent w)
    = watched_result (watchRollbackEvent (withoutSignals w)) ∧
  withoutSignals (watched_rest (watchRollbackEvent w))
    = watched_rest (watchRollbackEvent (withoutSignals w)) ∧
  (watched_stops (watchRollbackEvent (withoutSignals w)) ≤ 1)%nat ∧
  (watched_stops (watchRollbackEvent w)
   + length (filter (λ item, isSignal item = true) (watched_rest (watchRollbackEvent w)))
   = watched_stops (watchRollbackEvent (withoutSignals w))
     + length (filter (λ item, isSignal item = true) w))%nat.
Proof.
  unfold withoutSignals.
  induction w as [|item w (IH1 & IH2 & IH3 & IH4)]; [simpl; repeat split; lia|].
  destruct item as [e | description |].
  - rewrite filter_cons_True by done.
    rewrite (filter_cons_False (λ item, isSignal item = true)) by done.
    simpl. destruct (isRollbackEvent e) as [[] outcome]; simpl; [|done].
    repeat split; lia.
  - rewrite filter_cons_True by done.
    rewrite (filter_cons_False (λ item, isSignal item = true)) by done.
    simpl. repeat split; lia.
  - rewrite filter_cons_False by done.
    rewrite (filter_cons_True (λ item, isSignal item = true)) by done.
    simpl. repeat split; try done. lia.
Qed.

(** The watch takes its result from an event it received: the result
    is empty, or it is what [isRollbackEvent] says of an event of the
    stream whose reason is one of the three, in which case the watcher
    was stopped; and what is left in the channel is the end of the
    stream.  An object that is no event ends the watch with the empty
    result. *)
Theorem watchRollbackEvent_result (w : list Received) :
  (watched_result (watchRollbackEvent w) = EmptyString ∨
   ∃ e, EventReceived e ∈ w ∧
        isRollbackEvent e = (true, watched_result (watchRollbackEvent w)) ∧
        (1 ≤ watched_stops (watchRollbackEvent w))%nat) ∧
  (∃ taken, w = taken ++ watched_rest (watchRollbackEvent w)) ∧
  (∀ before description rest,
     Forall otherReason before →
     w = before ++ OtherReceived description :: rest →
     watchRollbackEvent w = mkWatched EmptyString 1 rest).
Proof.
  split; [|split].
  - induction w as [|item w IH]; [by left|].
    destruct item as [e | description |]; simpl.
    + destruct (isRollbackEvent e) as [[] outcome] eqn:He; simpl.
      * right. exists e. split; [by left|]. split; [done | lia].
      * destruct IH as [Hempty | (e' & Hin & He' & Hstops)]; [by left|].
        right. exists e'. split; [by right | done].
    + by left.
    + destruct IH as [Hempty | (e' & Hin & He' & Hstops)]; [by left|].
      right. exists e'. split; [by right|]. split; [done | lia].
  - induction w as [|item w [taken IH]]; [by exists []|].
    destruct item as [e | description |]; simpl.
    + destruct (isRollbackEvent e) as [[] outcome]; simpl.
      * by exists [EventReceived e].
      * exists (EventReceived e :: taken). simpl. by rewrite <- IH.
    + by exists [OtherReceived description].
    + exists (SignalReceived :: taken). simpl. by rewrite <- IH.
  - intros before description rest Hbefore ->.
    by rewrite watchRollbackEvent_skip.
Qed.
End WatchSignals.

(** ** The overview of the revisions *)

Section Overview.
Context `{Sorter} `{Libraries} `{Interface}.

Lemma daemonSetHistoryInfo_keys (history : list ControllerRevision) (r : Z) :
  is_Some (daemonSetHistoryInfo history !! r) ↔ ∃ h, h ∈ history ∧ Revision h = r.
Proof.
  rewrite daemonSetHistoryInfo_lookup. split.
  - intros [h Hfind]. apply findMatching_Some in Hfind as [Hin Hrev].
    exists h. split; [by rewrite elem_of_reverse in Hin | done].
  - intros (h & Hin & Hrev).
    destruct (findMatching r (reverse history)) as [h'|] eqn:Hfind; [done|].
    rewrite findMatching_None_iff in Hfind.
    destruct (Hfind h); [by rewrite elem_of_reverse | done].
Qed.

Lemma size_pos_of_lookup {A} (m : gmap Z A) (r : Z) :
  is_Some (m !! r) → size m ≠ 0%nat.
Proof.
  intros [x Hx] Hsize. apply map_size_empty_inv in Hsize. subst m.
  by rewrite lookup_empty in Hx.
Qed.

(** Asked for revision 0, or for a negative revision, the Deployment
    viewer lists each revision that some replica set carries once, in
    ascending order, one line a revision, below the header
    REVISION, CHANGE-CAUSE. *)
Theorem DeploymentHistoryViewer_overview (namespace name : string) (revision : Z)
    (deployment : Deployment) (allOldRSs : list ReplicaSet) (newRS : option ReplicaSet) :
  Deployments_Get namespace name = Ok deployment →
  GetAllReplicaSets deployment = Ok (allOldRSs, newRS) →
  size (deploymentHistoryInfo (allOldRSs ++ option_list newRS)) ≠ 0%nat →
  revision ≤ 0 →
  ∃ revisions,
    StronglySorted Z.lt revisions ∧
    (∀ r, r ∈ revisions ↔
          ∃ rs, rs ∈ allOldRSs ++ option_list newRS ∧ deploymentutil_Revision rs = Ok r) ∧
    result (DeploymentHistoryViewer_ViewHistory namespace name revision)
      = Ok (tabwriter_Flush
              ("REVISION" +:+ TAB +:+ "CHANGE-CAUSE" +:+ LF +:+
               String.concat EmptyString
                 ((λ r, changeCauseRow r
                          (from_option Template_Annotations ∅
                             (deploymentHistoryInfo (allOldRSs ++ option_list newRS)
                                !! r)))
                    <$> revisions))).
Proof.
  intros Hget Hrs Hsize Hrev.
  exists (SortInts64 (map_to_list
            (deploymentHistoryInfo (allOldRSs ++ option_list newRS))).*1).
  split; [apply sortedKeys_ascending|]. split.
  - intros r. by rewrite sortedKeys_elem, deploymentHistoryInfo_keys.
  - unfold DeploymentHistoryViewer_ViewHistory.
    run. rewrite Hget. run. rewrite Hrs. run.
    rewrite bool_decide_eq_false_2 by done.
    by rewrite (bool_decide_eq_false_2 (0 < revision)) by lia.
Qed.

(** Asked for revision 0, or for a negative revision, the DaemonSet
    viewer lists each revision number of a history that is not empty
    once, in ascending order, also when several snapshots carry the same
    number. *)
Theorem DaemonSetHistoryViewer_overview (namespace name : string) (revision : Z)
    (ds : DaemonSet) (history : list ControllerRevision) :
  result (daemonSetHistory namespace name) = Ok (ds, history) →
  history ≠ [] →
  revision ≤ 0 →
  ∃ revisions,
    StronglySorted Z.lt revisions ∧
    (∀ r, r ∈ revisions ↔ ∃ h, h ∈ history ∧ Revision h = r) ∧
    result (DaemonSetHistoryViewer_ViewHistory namespace name revision)
      = Ok (tabwriter_Flush
              ("REVISION" +:+ TAB +:+ "CHANGE-CAUSE" +:+ LF +:+
               String.concat EmptyString
                 ((λ r, changeCauseRow r
                          (from_option (Annotations ∘ ObjectMeta_of_revision) ∅
                             (daemonSetHistoryInfo history !! r)))
                    <$> revisions))).
Proof.
  intros Hhist Hne Hrev.
  exists (SortInts64 (map_to_list (daemonSetHistoryInfo history)).*1).
  split; [apply sortedKeys_ascending|]. split.
  - intros r. by rewrite sortedKeys_elem, daemonSetHistoryInfo_keys.
  - unfold DaemonSetHistoryViewer_ViewHistory.
    run. rewrite Hhist. run.
    rewrite bool_decide_eq_false_2.
    + by rewrite (bool_decide_eq_false_2 (0 < revision)) by lia.
    + destruct history as [|h history]; [done|].
      apply (size_pos_of_lookup _ (Revision h)), daemonSetHistoryInfo_keys.
      exists h. split; [by left | done].
Qed.

(** For a DaemonSet whose history is not empty and carries pairwise
    distinct revision numbers, what the viewer prints for a positive
    revision is what a dry run of the rollback to that revision prints
    behind "will roll back to ". *)
Theorem dry_run_previews_viewed_revision (obj : Object)
    (updatedAnnotations : gmap string string) (revision : Z)
    (accessor : ObjectMeta) (ds : DaemonSet) (history : list ControllerRevision)
    (viewed : string) :
  Accessor obj = Ok accessor →
  result (daemonSetHistory (Namespace accessor) (Name accessor)) = Ok (ds, history) →
  history ≠ [] →
  NoDup (Revision <$> history) →
  0 < revision →
  result (DaemonSetHistoryViewer_ViewHistory (Namespace accessor) (Name accessor)
            revision) = Ok viewed →
  result (DaemonSetRollbacker_Rollback obj updatedAnnotations revision true)
    = Ok ("will roll back to " +:+ viewed).
Proof.
  intros Hacc Hhist Hne Hnodup Hpos.
  assert (daemonSetHistoryInfo history !! revision = findHistory revision history)
    as Hsame by (apply daemonSetHistoryInfo_findHistory; [done | lia]).
  unfold DaemonSetHistoryViewer_ViewHistory, DaemonSetRollbacker_Rollback.
  rewrite (bool_decide_eq_false_2 (revision < 0)) by lia.
  rewrite Hacc. run. rewrite Hhist. run.
  rewrite (bool_decide_eq_false_2 (revision = 0)) by lia. run.
  rewrite bool_decide_eq_false_2.
  2: { destruct history as [|h history]; [done|].
       apply (size_pos_of_lookup _ (Revision h)), daemonSetHistoryInfo_keys.
       exists h. split; [by left | done]. }
  rewrite (bool_decide_eq_true_2 (0 < revision)) by done.
  rewrite Hsame.
  destruct (findHistory revision history) as [toHistory|]; [|done].
  destruct (applyDaemonSetHistory_value ds toHistory) as [applied|]; [|done].
  run. unfold printTemplate, printPodTemplate.
  destruct (Convert_v1_PodTemplateSpec_To_api_PodTemplateSpec _); [|done].
  simpl. by intros [= <-].
Qed.
End Overview.

(** ** The factories *)

Section FactoriesAgree.
Context `{Libraries} `{Kinds}.

End FactoriesAgree.

(** ** The insertion sort sorts *)

Lemma insertionStep_perm (x : ControllerRevision) (sorted : list ControllerRevision) :
  insertionStep x sorted ≡ₚ x :: sorted.
Proof.
  induction sorted as [|y rest IH]; [done|].
  simpl. destruct (Less x y); [done|].
  by rewrite IH, Permutation_swap.
Qed.

Lemma insertionStep_sorted (x : ControllerRevision) (sorted : list ControllerRevision) :
  StronglySorted byRevision sorted →
  StronglySorted byRevision (insertionStep x sorted).
Proof.
  induction 1 as [|y rest Hrest IH Hy]; [by repeat constructor|].
  simpl. unfold Less. case_bool_decide as Hlt.
  - constructor; [by constructor|].
    constructor; [unfold byRevision; lia|].
    eapply Forall_impl; [exact Hy|]. unfold byRevision. intros z Hz. lia.
  - constructor; [done|].
    rewrite insertionStep_perm. constructor; [unfold byRevision; lia | done].
Qed.

Lemma insertionSort_from (l sorted : list ControllerRevision) :
  StronglySorted byRevision sorted →
  fold_left (λ sorted x, insertionStep x sorted) l sorted ≡ₚ l ++ sorted ∧
  StronglySorted byRevision (fold_left (λ sorted x, insertionStep x sorted) l sorted).
Proof.
  revert sorted. induction l as [|x l IH]; intros sorted Hsorted; [done|].
  simpl. destruct (IH (insertionStep x sorted)) as [Hperm Hs].
  { by apply insertionStep_sorted. }
  split; [|done].
  by rewrite Hperm, insertionStep_perm, Permutation_middle.
Qed.

Lemma insertionSort_perm (l : list ControllerRevision) : insertionSort l ≡ₚ l.
Proof.
  destruct (insertionSort_from l []) as [Hperm _]; [constructor|].
  unfold insertionSort. by rewrite Hperm, app_nil_r.
Qed.

Lemma insertionSort_sorted (l : list ControllerRevision) :
  StronglySorted byRevision (insertionSort l).
Proof. apply insertionSort_from. constructor. Qed.

(** [sort.Sort] as it runs on a short slice. *)
Definition insertionSorter : Sorter :=
  mkSorter insertionSort insertionSort_perm insertionSort_sorted.

Global Instance byRevision_dec : RelDecision byRevision.
Proof. intros a b. unfold byRevision. apply _. Defined.

Lemma byRevision_transitive : Transitive byRevision.
Proof. intros a b c. unfold byRevision. lia. Qed.

Lemma byRevision_total : Total byRevision.
Proof. intros a b. unfold byRevision. lia. Qed.

Lemma mergeSort_sorted (l : list ControllerRevision) :
  StronglySorted byRevision (merge_sort byRevision l).
Proof.
  apply StronglySorted_merge_sort;
    [apply byRevision_transitive | apply byRevision_total].
Qed.

(** Another [sort.Sort]: a merge sort. *)
Definition mergeSorter : Sorter :=
  mkSorter (merge_sort byRevision) (merge_sort_Permutation byRevision) mergeSort_sorted.

(** ** The statements on the concrete cluster *)

(** On the snapshots of revisions 3, 1 and 2, target 0 selects
    revision 2. *)
Lemma findHistory_previous_revision_witness :
  (2 ≤ length threeSnapshots)%nat ∧
  NoDup (Revision <$> threeSnapshots) ∧
  @findHistory insertionSorter 0 threeSnapshots = Some (snapshot 2 "templateB") ∧
  ∃ h, @findHistory insertionSorter 0 threeSnapshots = Some h ∧
       secondLargest h threeSnapshots ∧ ¬ largest h threeSnapshots.
Proof.
  assert (2 ≤ length threeSnapshots)%nat as Hlen by (simpl; lia).
  assert (NoDup (Revision <$> threeSnapshots)) as Hnodup.
  { apply (bool_decide_unpack _). vm_compute. exact I. }
  split; [exact Hlen|]. split; [exact Hnodup|]. split; [reflexivity|].
  exact (@findHistory_previous_revision insertionSorter threeSnapshots Hlen Hnodup).
Defined.

(** On two snapshots of the same revision number, the snapshot target 0
    selects carries the largest revision number of the list, and not the
    second-largest. *)
Lemma findHistory_previous_revision_counterexample :
  (2 ≤ length twinSnapshots)%nat ∧
  ∃ h, @findHistory insertionSorter 0 twinSnapshots = Some h ∧
       largest h twinSnapshots ∧ ¬ secondLargest h twinSnapshots.
Proof.
  split; [simpl; lia|].
  exists (snapshot 3 "templateA"). split; [reflexivity|].
  assert (largest (snapshot 3 "templateA") twinSnapshots) as Hlargest.
  { intros x Hx. unfold twinSnapshots in Hx.
    apply elem_of_cons in Hx as [-> | Hx]; [done|].
    apply elem_of_cons in Hx as [-> | Hx]; [done|].
    by apply elem_of_nil in Hx. }
  split; [exact Hlargest|].
  intros (_ & m & Hm & _ & Hlt & _).
  specialize (Hlargest m Hm). lia.
Qed.

Ltac none_of :=
  let h := fresh "h" in
  let Hh := fresh "Hh" in
  intros h Hh;
  repeat (apply elem_of_cons in Hh as [-> | Hh]; [done|]);
  by apply elem_of_nil in Hh.

(** The scenario of the one snapshot of revision 5 and target 0. *)
Lemma rollback_insufficient_history_witness :
  (length [snapshot 5 "templateX"] ≤ 1)%nat ∧
  (let rollback :=
     @DaemonSetRollbacker_Rollback insertionSorter exampleLibraries oneSnapshotCluster
       (DaemonSetObject webDaemonSet) ∅ 0 false in
   result rollback = Err "no last revision to roll back to" ∧
   noMutation (trace rollback)) ∧
  (let rollback :=
     @StatefulSetRollbacker_Rollback insertionSorter exampleLibraries oneSnapshotCluster
       (StatefulSetObject webStatefulSet) ∅ 0 false in
   result rollback = Err "no last revision to roll back to" ∧
   noMutation (trace rollback)).
Proof.
  assert (length [snapshot 5 "templateX"] ≤ 1)%nat as Hlen by (simpl; lia).
  split; [exact Hlen|]. split.
  - apply (proj1 (@rollback_insufficient_history insertionSorter exampleLibraries
                    oneSnapshotCluster (DaemonSetObject webDaemonSet) ∅ false _ Hlen)
             webDaemonSet).
    exists webMeta. split; reflexivity.
  - apply (proj2 (@rollback_insufficient_history insertionSorter exampleLibraries
                    oneSnapshotCluster (StatefulSetObject webStatefulSet) ∅ false _ Hlen)
             webStatefulSet).
    exists webMeta. split; reflexivity.
Defined.

(** The scenarios of target -1, and of target 7 on revisions 1, 2, 3. *)
Lemma rollback_revision_not_found_witness :
  @DaemonSetRollbacker_Rollback insertionSorter exampleLibraries threeSnapshotCluster
    (DaemonSetObject webDaemonSet) ∅ (-1) false
    = ([], Err "unable to find specified revision -1 in history") ∧
  result (@DaemonSetRollbacker_Rollback insertionSorter exampleLibraries
            threeSnapshotCluster (DaemonSetObject webDaemonSet) ∅ 7 false)
    = Err "unable to find specified revision 7 in history" ∧
  result (@StatefulSetRollbacker_Rollback insertionSorter exampleLibraries
            threeSnapshotCluster (StatefulSetObject webStatefulSet) ∅ 7 false)
    = Err "unable to find specified revision 7 in history".
Proof.
  split; [|split].
  - apply (proj1 (@rollback_revision_not_found insertionSorter exampleLibraries
                    threeSnapshotCluster (DaemonSetObject webDaemonSet) ∅ (-1) false)
             ltac:(lia)).
  - apply (proj1 (proj2 (@rollback_revision_not_found insertionSorter exampleLibraries
                           threeSnapshotCluster (DaemonSetObject webDaemonSet) ∅ 7 false)
                    ltac:(lia) threeSnapshots ltac:(none_of))
             webDaemonSet).
    exists webMeta. split; reflexivity.
  - apply (proj2 (proj2 (@rollback_revision_not_found insertionSorter exampleLibraries
                           threeSnapshotCluster (StatefulSetObject webStatefulSet) ∅ 7 false)
                    ltac:(lia) threeSnapshots ltac:(none_of))
             webStatefulSet).
    exists webMeta. split; reflexivity.
Defined.

(** Reconstructing revision 2 twice from the DaemonSet at address 1. *)
Lemma applyDaemonSetHistory_preserves_base_witness :
  webHeap !! 1%positive = Some webDaemonSet ∧
  ∃ heap1 r1 heap2 r2,
    @applyDaemonSetHistory exampleLibraries webHeap 1 (snapshot 2 "templateB")
      = Some (heap1, r1) ∧
    @applyDaemonSetHistory exampleLibraries heap1 1 (snapshot 2 "templateB")
      = Some (heap2, r2) ∧
    preserved webHeap heap1 ∧ preserved heap1 heap2 ∧
    heap2 !! 1%positive = Some webDaemonSet ∧
    (∀ clone1 clone2, r1 = Ok clone1 → r2 = Ok clone2 →
       clone1 ≠ 1%positive ∧ clone2 ≠ 1%positive ∧ clone1 ≠ clone2) ∧
    outcome heap1 r1
      = Some (@applyDaemonSetHistory_value exampleLibraries webDaemonSet
                (snapshot 2 "templateB")) ∧
    outcome heap2 r2 = outcome heap1 r1.
Proof.
  assert (webHeap !! 1%positive = Some webDaemonSet) as Hbase by reflexivity.
  split; [exact Hbase|].
  exact (@applyDaemonSetHistory_preserves_base exampleLibraries webHeap 1 webDaemonSet
           (snapshot 2 "templateB") Hbase).
Defined.

(** The scenario of a rollback to revision 3, whose template is the
    live one. *)
Lemma rollback_skips_matching_template_witness :
  (let rollback :=
     @DaemonSetRollbacker_Rollback insertionSorter exampleLibraries threeSnapshotCluster
       (DaemonSetObject webDaemonSet) ∅ 3 false in
   result rollback
     = Ok "skipped rollback (current template already matches revision 3)" ∧
   noMutation (trace rollback)) ∧
  (let rollback :=
     @StatefulSetRollbacker_Rollback insertionSorter exampleLibraries threeSnapshotCluster
       (StatefulSetObject webStatefulSet) ∅ 3 false in
   result rollback
     = Ok "skipped rollback (current template already matches revision 3)" ∧
   noMutation (trace rollback)).
Proof.
  assert (@findHistory insertionSorter 3 threeSnapshots = Some (snapshot 3 "templateC"))
    as Hfind by reflexivity.
  split.
  - apply (proj1 (@rollback_skips_matching_template insertionSorter exampleLibraries
                    threeSnapshotCluster (DaemonSetObject webDaemonSet) ∅ 3
                    threeSnapshots _ ltac:(lia) Hfind) webDaemonSet).
    + exists webMeta. split; reflexivity.
    + reflexivity.
  - apply (proj2 (@rollback_skips_matching_template insertionSorter exampleLibraries
                    threeSnapshotCluster (StatefulSetObject webStatefulSet) ∅ 3
                    threeSnapshots _ ltac:(lia) Hfind) webStatefulSet).
    + exists webMeta. split; reflexivity.
    + reflexivity.
Defined.

(** The scenario of a dry run to the previous revision, which is
    revision 2. *)
Lemma dry_run_never_mutates_witness :
  noMutation (trace (@DeploymentRollbacker_Rollback exampleLibraries threeSnapshotCluster
                       (DeploymentObject (webDeployment false)) ∅ 0 true)) ∧
  (let rollback :=
     @DaemonSetRollbacker_Rollback insertionSorter exampleLibraries threeSnapshotCluster
       (DaemonSetObject webDaemonSet) ∅ 0 true in
   noMutation (trace rollback) ∧
   result rollback = Ok ("will roll back to Pod Template: templateB" +:+ LF)) ∧
  (let rollback :=
     @StatefulSetRollbacker_Rollback insertionSorter exampleLibraries threeSnapshotCluster
       (StatefulSetObject webStatefulSet) ∅ 0 true in
   noMutation (trace rollback) ∧
   result rollback = Ok ("will roll back to Pod Template: templateB" +:+ LF)).
Proof.
  assert (@findHistory insertionSorter 0 threeSnapshots = Some (snapshot 2 "templateB"))
    as Hfind by reflexivity.
  pose proof (@dry_run_never_mutates insertionSorter exampleLibraries threeSnapshotCluster)
    as Hdry.
  split; [|split].
  - apply (Hdry (DeploymentObject (webDeployment false)) ∅ 0).
  - destruct (Hdry (DaemonSetObject webDaemonSet) ∅ 0) as [(_ & Hreads & _) Hrender].
    split; [exact Hreads|].
    apply (proj1 (Hrender threeSnapshots _
                    (mkInternalTemplate ∅ "templateB") ltac:(lia) Hfind)
             webDaemonSet
             (mkDaemonSet webMeta webSelector (mkPodTemplateSpec ∅ "templateB"))).
    + exists webMeta. split; reflexivity.
    + reflexivity.
    + reflexivity.
  - destruct (Hdry (StatefulSetObject webStatefulSet) ∅ 0) as [(_ & _ & Hreads) Hrender].
    split; [exact Hreads|].
    apply (proj2 (Hrender threeSnapshots _
                    (mkInternalTemplate ∅ "templateB") ltac:(lia) Hfind)
             webStatefulSet
             (mkStatefulSet webMeta webSelector (mkPodTemplateSpec ∅ "templateB"))).
    + exists webMeta. split; reflexivity.
    + reflexivity.
    + reflexivity.
Defined.

(** A real rollback of the paused deployment. *)
Lemma paused_deployment_rejected_witness :
  Paused (webDeployment true) = true ∧
  @DeploymentRollbacker_Rollback exampleLibraries pausedCluster
    (DeploymentObject (webDeployment true)) ∅ 0 false
    = ([], Err ("you cannot rollback a paused deployment; resume it first with "
                  +:+ "'kubectl rollout resume deployment/web' and try again")).
Proof.
  split; [reflexivity|].
  exact (@paused_deployment_rejected exampleLibraries pausedCluster
           (webDeployment true) ∅ 0 eq_refl).
Defined.

(** A dry run on the paused deployment is not turned down: it lists the
    replica sets and returns the preview of the previous revision. *)
Lemma paused_deployment_rejected_counterexample :
  Paused (webDeployment true) = true ∧
  @DeploymentRollbacker_Rollback exampleLibraries pausedCluster
    (DeploymentObject (webDeployment true)) ∅ 0 true
    = ([ListReplicaSets "default" "web"],
       Ok (LF +:+ "Pod Template: templateA" +:+ LF)) ∧
  @DeploymentRollbacker_Rollback exampleLibraries pausedCluster
    (DeploymentObject (webDeployment true)) ∅ 0 true
    ≠ ([], Err (pausedErr (webDeployment true))).
Proof.
  split; [reflexivity|]. split; [by vm_compute|].
  intros Heq. vm_compute in Heq. discriminate Heq.
Qed.

(** The watch on a stream of a pod event and then a rollback event. *)
Lemma watchRollbackEvent_classifies_witness :
  @watchRollbackEvent exampleLibraries
    (scheduled :: EventReceived (mkEvent "DeploymentRollback" "rolled back to 2")
       :: laterEvents)
    = mkWatched "rolled back" 1 laterEvents ∧
  @watchRollbackEvent exampleLibraries
    (scheduled :: EventReceived (mkEvent "DeploymentRollbackTemplateUnchanged"
                                   "same as revision 2") :: laterEvents)
    = mkWatched
        "skipped rollback (DeploymentRollbackTemplateUnchanged: same as revision 2)"
        1 laterEvents ∧
  @watchRollbackEvent exampleLibraries [scheduled]
    = mkWatched EmptyString 0 [].
Proof.
  assert (@RollbackRevisionNotFound exampleLibraries ≠ @RollbackDone exampleLibraries)
    as Hnf by discriminate.
  assert (@RollbackTemplateUnchanged exampleLibraries ≠ @RollbackDone exampleLibraries)
    as Hun by discriminate.
  assert (Forall (@otherReason exampleLibraries) [scheduled]) as Hbefore.
  { constructor; [|constructor].
    eexists. split; [reflexivity|]. repeat split; discriminate. }
  split; [|split].
  - apply (proj1 (@watchRollbackEvent_classifies exampleLibraries [scheduled] laterEvents
                    (mkEvent "DeploymentRollback" "rolled back to 2") Hnf Hun Hbefore)
             eq_refl).
  - apply (proj1 (proj2 (@watchRollbackEvent_classifies exampleLibraries [scheduled] laterEvents
                           (mkEvent "DeploymentRollbackTemplateUnchanged"
                              "same as revision 2") Hnf Hun Hbefore))
             (or_intror eq_refl)).
  - apply (proj2 (proj2 (proj2
             (@watchRollbackEvent_classifies exampleLibraries [scheduled] laterEvents
                (mkEvent "DeploymentRollback" "rolled back to 2") Hnf Hun Hbefore)))).
Defined.

(** The history of the StatefulSet with the one snapshot of revision 1. *)
Lemma StatefulSetHistoryViewer_prints_zero_witness :
  result (@StatefulSetHistoryViewer_ViewHistory exampleLibraries firstSnapshotCluster
            "default" "web" 0)
    = Ok ("REVISION" +:+ LF +:+ "0" +:+ LF +:+ "1" +:+ LF).
Proof.
  exact (@StatefulSetHistoryViewer_prints_zero exampleLibraries firstSnapshotCluster
           "default" "web" 0 webStatefulSet (snapshot 1 "templateA") eq_refl eq_refl).
Defined.

(** The history of a workload without snapshots and replica sets, asked
    for revision 4. *)
Lemma ViewHistory_empty_witness :
  result (@DeploymentHistoryViewer_ViewHistory exampleLibraries emptyCluster
            "default" "web" 4) = Ok "No rollout history found." ∧
  result (@DaemonSetHistoryViewer_ViewHistory exampleLibraries emptyCluster
            "default" "web" 4) = Ok "No rollout history found." ∧
  result (@StatefulSetHistoryViewer_ViewHistory exampleLibraries emptyCluster
            "default" "web" 4) = Ok "No rollout history found.".
Proof.
  pose proof (@ViewHistory_empty exampleLibraries emptyCluster "default" "web" 4)
    as (Hdeployment & Hds & Hsts).
  split; [|split].
  - apply (Hdeployment (webDeployment false) [] None); reflexivity.
  - apply (Hds webDaemonSet). reflexivity.
  - apply (Hsts webStatefulSet). reflexivity.
Defined.

(** ** Further statements on the concrete cluster *)

(** Target 2 on snapshots of which the first and the last carry 2, and
    target 7, which none carries. *)
Lemma findHistory_explicit_witness :
  @findHistory insertionSorter 2 repeatedSnapshots = Some (snapshot 2 "templateB") ∧
  (∃ pre post, repeatedSnapshots = pre ++ snapshot 2 "templateB" :: post ∧
               Revision (snapshot 2 "templateB") = 2 ∧
               ∀ x, x ∈ pre → Revision x ≠ 2) ∧
  @findHistory insertionSorter 7 repeatedSnapshots = None.
Proof.
  assert (@findHistory insertionSorter 2 repeatedSnapshots = Some (snapshot 2 "templateB"))
    as Hfind by reflexivity.
  split; [exact Hfind|]. split.
  - exact (proj2 (@findHistory_explicit insertionSorter 2 repeatedSnapshots ltac:(lia))
             _ Hfind).
  - apply (proj1 (@findHistory_explicit insertionSorter 7 repeatedSnapshots ltac:(lia))).
    none_of.
Defined.

(** On the three snapshots, the viewer and the rollback agree on
    revision 2. *)
Lemma viewed_revision_is_rollback_target_witness :
  NoDup (Revision <$> threeSnapshots) ∧
  daemonSetHistoryInfo threeSnapshots !! 2 = @findHistory insertionSorter 2 threeSnapshots ∧
  @findHistory insertionSorter 2 threeSnapshots = Some (snapshot 2 "templateB").
Proof.
  assert (NoDup (Revision <$> threeSnapshots)) as Hnodup.
  { apply (bool_decide_unpack _). vm_compute. exact I. }
  split; [exact Hnodup|].
  destruct (@viewed_revision_is_rollback_target insertionSorter threeSnapshots 2
              Hnodup ltac:(lia)) as [Hsame Hfound].
  split; [exact Hsame|].
  apply Hfound; [|reflexivity].
  right. right. left.
Defined.

(** The insertion sort and the merge sort on the twin snapshots. *)
Lemma findHistory_zero_any_sort_witness :
  (2 ≤ length twinSnapshots)%nat ∧
  ∃ h1 h2, @findHistory insertionSorter 0 twinSnapshots = Some h1 ∧
           @findHistory mergeSorter 0 twinSnapshots = Some h2 ∧
           h1 ∈ twinSnapshots ∧ h2 ∈ twinSnapshots ∧
           Revision h1 = Revision h2.
Proof.
  assert (2 ≤ length twinSnapshots)%nat as Hlen by (simpl; lia).
  split; [exact Hlen|].
  exact (findHistory_zero_any_sort insertionSorter mergeSorter twinSnapshots Hlen).
Defined.

(** Swapping the first and the last of the three snapshots. *)
Lemma historiesByRevision_Swap_exchanges_witness :
  historiesByRevision_Swap threeSnapshots 0 2
    = Some [snapshot 2 "templateB"; snapshot 1 "templateA"; snapshot 3 "templateC"] ∧
  (∃ h', historiesByRevision_Swap threeSnapshots 0 2 = Some h' ∧
         historiesByRevision_Len h' = historiesByRevision_Len threeSnapshots ∧
         h' !! 0%nat = threeSnapshots !! 2%nat ∧ h' !! 2%nat = threeSnapshots !! 0%nat ∧
         (∀ k, k ≠ 0%nat → k ≠ 2%nat → h' !! k = threeSnapshots !! k) ∧
         h' ≡ₚ threeSnapshots) ∧
  historiesByRevision_Swap threeSnapshots 0 3 = None.
Proof.
  split; [reflexivity|]. split.
  - apply (proj1 (historiesByRevision_Swap_exchanges threeSnapshots 0 2));
      simpl; lia.
  - apply (proj2 (historiesByRevision_Swap_exchanges threeSnapshots 0 3)).
    right. simpl. lia.
Defined.

(** The replica sets of revisions 1 and 2. *)
Lemma deployment_revisions_agree_witness :
  is_Some (@revisionToSpecOf exampleLibraries exampleReplicaSets !! 2) ∧
  is_Some (@deploymentHistoryInfo exampleLibraries exampleReplicaSets !! 2) ∧
  ¬ is_Some (@deploymentHistoryInfo exampleLibraries exampleReplicaSets !! 3).
Proof.
  pose proof (@deployment_revisions_agree exampleLibraries exampleReplicaSets 2)
    as (Hkeys & Hsame & _).
  assert (is_Some (@revisionToSpecOf exampleLibraries exampleReplicaSets !! 2)) as Hsome.
  { apply Hkeys. exists (replicaSet "2" "templateB"). split; [|reflexivity].
    right. left. }
  split; [exact Hsome|]. split; [by apply Hsame|].
  pose proof (@deployment_revisions_agree exampleLibraries exampleReplicaSets 3)
    as (Hkeys3 & Hsame3 & _).
  intros Hthree. apply Hsame3, Hkeys3 in Hthree as (rs & Hin & Hrev).
  unfold exampleReplicaSets in Hin.
  apply elem_of_cons in Hin as [-> | Hin]; [discriminate Hrev|].
  apply elem_of_cons in Hin as [-> | Hin]; [discriminate Hrev|].
  by apply elem_of_nil in Hin.
Defined.

(** A dry run to revision 1 of the deployment whose one replica set
    carries revision 1. *)
Lemma simpleDryRun_needs_two_revisions_witness :
  (size (@revisionToSpecOf exampleLibraries [replicaSet "1" "templateA"]) < 2)%nat ∧
  result (@simpleDryRun exampleLibraries oneReplicaSetCluster (webDeployment false) 1)
    = Err ("no rollout history found for deployment " +:+ DQUOTE +:+ "web" +:+ DQUOTE).
Proof.
  assert (size (@revisionToSpecOf exampleLibraries
                  ([replicaSet "1" "templateA"] ++ option_list None)) < 2)%nat as Hsize.
  { vm_compute. lia. }
  split; [exact Hsize|].
  exact (@simpleDryRun_needs_two_revisions exampleLibraries oneReplicaSetCluster
           (webDeployment false) (webDeployment false) 1
           [replicaSet "1" "templateA"] None eq_refl eq_refl Hsize).
Defined.

(** Dry runs to revision 2, which exists, and to revision 7, which does
    not. *)
Lemma simpleDryRun_explicit_witness :
  result (@simpleDryRun exampleLibraries threeSnapshotCluster (webDeployment false) 2)
    = Ok ("Pod Template: templateB" +:+ LF) ∧
  result (@simpleDryRun exampleLibraries threeSnapshotCluster (webDeployment false) 7)
    = Err "unable to find specified revision 7 in history".
Proof.
  assert (2 ≤ size (@revisionToSpecOf exampleLibraries
                      (exampleReplicaSets ++ option_list None)))%nat as Hsize.
  { vm_compute. lia. }
  split.
  - apply (proj2 (@simpleDryRun_explicit exampleLibraries threeSnapshotCluster
                    (webDeployment false) (webDeployment false) 2
                    exampleReplicaSets None eq_refl eq_refl Hsize ltac:(lia))
             (mkPodTemplateSpec ∅ "templateB")).
    reflexivity.
  - apply (proj1 (@simpleDryRun_explicit exampleLibraries threeSnapshotCluster
                    (webDeployment false) (webDeployment false) 7
                    exampleReplicaSets None eq_refl eq_refl Hsize ltac:(lia))).
    intros rs Hin Hrev. simpl in Hin.
    apply elem_of_cons in Hin as [-> | Hin]; [discriminate Hrev|].
    apply elem_of_cons in Hin as [-> | Hin]; [discriminate Hrev|].
    by apply elem_of_nil in Hin.
Defined.

(** A dry run to the negative target -3. *)
Lemma simpleDryRun_previous_witness :
  ∃ r mx template,
    @revisionToSpecOf exampleLibraries (exampleReplicaSets ++ option_list None) !! r
      = Some template ∧
    is_Some (@revisionToSpecOf exampleLibraries (exampleReplicaSets ++ option_list None)
               !! mx) ∧
    r < mx ∧
    (∀ k, is_Some (@revisionToSpecOf exampleLibraries
                     (exampleReplicaSets ++ option_list None) !! k) →
          k ≤ mx ∧ (k < mx → k ≤ r)) ∧
    result (@simpleDryRun exampleLibraries threeSnapshotCluster (webDeployment false) (-3))
      = match @Convert_v1_PodTemplateSpec_To_api_PodTemplateSpec exampleLibraries
                template with
        | Ok internalTemplate =>
            Ok (LF +:+ @DescribePodTemplate exampleLibraries internalTemplate)
        | Err err => Err ("failed to convert podtemplate, " +:+ err)
        end.
Proof.
  assert (2 ≤ size (@revisionToSpecOf exampleLibraries
                      (exampleReplicaSets ++ option_list None)))%nat as Hsize.
  { vm_compute. lia. }
  exact (@simpleDryRun_previous exampleLibraries threeSnapshotCluster
           (webDeployment false) (webDeployment false) (-3)
           exampleReplicaSets None eq_refl eq_refl Hsize ltac:(lia)).
Defined.

(** The history of the DaemonSet and of the StatefulSet "web". *)
Lemma history_is_controlled_witness :
  result (@daemonSetHistory exampleLibraries threeSnapshotCluster "default" "web")
    = Ok (webDaemonSet, threeSnapshots) ∧
  trace (@daemonSetHistory exampleLibraries threeSnapshotCluster "default" "web")
    = [GetDaemonSet "default" "web"; ListControllerRevisions "default" "app=web"] ∧
  trace (@statefulSetHistory exampleLibraries threeSnapshotCluster "default" "web")
    = [GetStatefulSet "default" "web"; ListControllerRevisions "default" "app=web"].
Proof.
  assert (result (@daemonSetHistory exampleLibraries threeSnapshotCluster "default" "web")
            = Ok (webDaemonSet, threeSnapshots)) as Hds by reflexivity.
  assert (result (@statefulSetHistory exampleLibraries threeSnapshotCluster "default" "web")
            = Ok (webStatefulSet, threeSnapshots)) as Hsts by reflexivity.
  split; [exact Hds|]. split.
  - destruct (proj1 (@history_is_controlled exampleLibraries threeSnapshotCluster
                       "default" "web" threeSnapshots) webDaemonSet Hds)
      as (selector & accessor & listed & _ & Hsel & _ & _ & _ & Htrace).
    injection Hsel as <-. exact Htrace.
  - destruct (proj2 (@history_is_controlled exampleLibraries threeSnapshotCluster
                       "default" "web" threeSnapshots) webStatefulSet Hsts)
      as (selector & accessor & listed & _ & Hsel & _ & _ & _ & Htrace).
    injection Hsel as <-. exact Htrace.
Defined.

(** The scenario of revisions 1, 2, 3 with the template of revision 3
    live and target 0: one patch with the data of revision 2. *)
Lemma rollback_patches_snapshot_witness :
  (let rollback :=
     @DaemonSetRollbacker_Rollback insertionSorter exampleLibraries threeSnapshotCluster
       (DaemonSetObject webDaemonSet) ∅ 0 false in
   mutatingCalls (trace rollback) = [PatchDaemonSet "default" "web" "templateB"] ∧
   result rollback = Ok "rolled back") ∧
  (let rollback :=
     @StatefulSetRollbacker_Rollback insertionSorter exampleLibraries threeSnapshotCluster
       (StatefulSetObject webStatefulSet) ∅ 0 false in
   mutatingCalls (trace rollback) = [PatchStatefulSet "default" "web" "templateB"] ∧
   result rollback = Ok "rolled back").
Proof.
  assert (@findHistory insertionSorter 0 threeSnapshots = Some (snapshot 2 "templateB"))
    as Hfind by reflexivity.
  split.
  - exact (proj1 (@rollback_patches_snapshot insertionSorter exampleLibraries
                    threeSnapshotCluster (DaemonSetObject webDaemonSet) ∅ 0
                    threeSnapshots _ webMeta ltac:(lia) eq_refl Hfind)
             webDaemonSet eq_refl eq_refl).
  - exact (proj2 (@rollback_patches_snapshot insertionSorter exampleLibraries
                    threeSnapshotCluster (StatefulSetObject webStatefulSet) ∅ 0
                    threeSnapshots _ webMeta ltac:(lia) eq_refl Hfind)
             webStatefulSet eq_refl eq_refl).
Defined.

(** An object without metadata, and a workload the server does not
    find. *)
Lemma rollback_fails_before_selection_witness :
  @DaemonSetRollbacker_Rollback insertionSorter exampleLibraries threeSnapshotCluster
    (OtherObject "a list") ∅ 2 false
    = ([], Err ("failed to create accessor for kind &TypeMeta{}: "
                  +:+ "object does not implement the Object interfaces")) ∧
  (let rollback :=
     @DaemonSetRollbacker_Rollback insertionSorter exampleLibraries missingWorkloadCluster
       (DaemonSetObject webDaemonSet) ∅ 2 false in
   result rollback = Err "failed to retrieve DaemonSet web: not found" ∧
   noMutation (trace rollback)) ∧
  (let rollback :=
     @StatefulSetRollbacker_Rollback insertionSorter exampleLibraries
       missingWorkloadCluster (StatefulSetObject webStatefulSet) ∅ 2 false in
   result rollback = Err "failed to retrieve Statefulset web: not found" ∧
   noMutation (trace rollback)).
Proof.
  split; [|split].
  - exact (proj1 (proj1 (@rollback_fails_before_selection insertionSorter
                           exampleLibraries threeSnapshotCluster (OtherObject "a list")
                           ∅ 2 false ltac:(lia))
                    _ eq_refl)).
  - exact (proj1 (proj2 (@rollback_fails_before_selection insertionSorter
                           exampleLibraries missingWorkloadCluster
                           (DaemonSetObject webDaemonSet) ∅ 2 false ltac:(lia))
                    webMeta _ eq_refl)
             eq_refl).
  - exact (proj2 (proj2 (@rollback_fails_before_selection insertionSorter
                           exampleLibraries missingWorkloadCluster
                           (StatefulSetObject webStatefulSet) ∅ 2 false ltac:(lia))
                    webMeta _ eq_refl)
             eq_refl).
Defined.

(** A real rollback of the deployment "web" to revision 1. *)
Lemma DeploymentRollbacker_requests_witness :
  Paused (webDeployment false) = false ∧
  @DeploymentRollbacker_Rollback exampleLibraries rolledBackCluster
    (DeploymentObject (webDeployment false)) ∅ 1 false
    = ([ListEvents "default";
        RollbackDeployment "default" (mkDeploymentRollback "web" ∅ 1);
        WatchEvents "default" "42"],
       Ok "rolled back").
Proof.
  split; [reflexivity|].
  exact (@DeploymentRollbacker_requests exampleLibraries rolledBackCluster
           (webDeployment false) ∅ 1 eq_refl).
Defined.

Lemma DeploymentRollbacker_outcome_witness :
  Forall (@otherReason exampleLibraries) [scheduled] ∧
  result (@DeploymentRollbacker_Rollback exampleLibraries rolledBackCluster
            (DeploymentObject (webDeployment false)) ∅ 1 false)
    = Ok "rolled back".
Proof.
  assert (Forall (@otherReason exampleLibraries) [scheduled]) as Hbefore.
  { constructor; [|constructor].
    eexists. split; [reflexivity|]. repeat split; discriminate. }
  split; [exact Hbefore|].
  exact (proj1 (@DeploymentRollbacker_outcome exampleLibraries rolledBackCluster
                  (webDeployment false) ∅ 1 "42" [scheduled] laterEvents
                  (mkEvent "DeploymentRollback" "rolled back to 1")
                  eq_refl eq_refl eq_refl eq_refl Hbefore)
           eq_refl).
Defined.

(** The overview of the deployment with the replica sets of revisions
    1 and 2, asked for revision -1. *)
Lemma DeploymentHistoryViewer_overview_witness :
  ∃ revisions,
    StronglySorted Z.lt revisions ∧
    (∀ r, r ∈ revisions ↔
          ∃ rs, rs ∈ exampleReplicaSets ++ option_list None ∧
                @deploymentutil_Revision exampleLibraries rs = Ok r) ∧
    result (@DeploymentHistoryViewer_ViewHistory exampleLibraries threeSnapshotCluster
              "default" "web" (-1))
      = Ok (@tabwriter_Flush exampleLibraries
              ("REVISION" +:+ TAB +:+ "CHANGE-CAUSE" +:+ LF +:+
               String.concat EmptyString
                 ((λ r, changeCauseRow r
                          (from_option Template_Annotations ∅
                             (@deploymentHistoryInfo exampleLibraries
                                (exampleReplicaSets ++ option_list None) !! r)))
                    <$> revisions))).
Proof.
  apply (@DeploymentHistoryViewer_overview exampleLibraries threeSnapshotCluster
           "default" "web" (-1) (webDeployment false) exampleReplicaSets None
           eq_refl eq_refl).
  - vm_compute. discriminate.
  - lia.
Defined.

(** The overview of the DaemonSet of which two snapshots carry
    revision 2. *)
Lemma DaemonSetHistoryViewer_overview_witness :
  result (@DaemonSetHistoryViewer_ViewHistory exampleLibraries repeatedSnapshotCluster
            "default" "web" 0)
    = Ok ("REVISION" +:+ TAB +:+ "CHANGE-CAUSE" +:+ LF +:+
          "1" +:+ TAB +:+ "<none>" +:+ LF +:+
          "2" +:+ TAB +:+ "<none>" +:+ LF) ∧
  ∃ revisions,
    StronglySorted Z.lt revisions ∧
    (∀ r, r ∈ revisions ↔ ∃ h, h ∈ repeatedSnapshots ∧ Revision h = r) ∧
    result (@DaemonSetHistoryViewer_ViewHistory exampleLibraries repeatedSnapshotCluster
              "default" "web" 0)
      = Ok (@tabwriter_Flush exampleLibraries
              ("REVISION" +:+ TAB +:+ "CHANGE-CAUSE" +:+ LF +:+
               String.concat EmptyString
                 ((λ r, changeCauseRow r
                          (from_option (Annotations ∘ ObjectMeta_of_revision) ∅
                             (daemonSetHistoryInfo repeatedSnapshots !! r)))
                    <$> revisions))).
Proof.
  split; [by vm_compute|].
  apply (@DaemonSetHistoryViewer_overview exampleLibraries repeatedSnapshotCluster
           "default" "web" 0 webDaemonSet repeatedSnapshots eq_refl);
    [discriminate | lia].
Defined.

(** Revision 2 of the DaemonSet "web", viewed and previewed. *)
Lemma dry_run_previews_viewed_revision_witness :
  result (@DaemonSetHistoryViewer_ViewHistory exampleLibraries threeSnapshotCluster
            "default" "web" 2) = Ok ("Pod Template: templateB" +:+ LF) ∧
  result (@DaemonSetRollbacker_Rollback insertionSorter exampleLibraries
            threeSnapshotCluster (DaemonSetObject webDaemonSet) ∅ 2 true)
    = Ok ("will roll back to " +:+ ("Pod Template: templateB" +:+ LF)).
Proof.
  assert (result (@DaemonSetHistoryViewer_ViewHistory exampleLibraries
                    threeSnapshotCluster "default" "web" 2)
            = Ok ("Pod Template: templateB" +:+ LF)) as Hview by reflexivity.
  assert (NoDup (Revision <$> threeSnapshots)) as Hnodup.
  { apply (bool_decide_unpack _). vm_compute. exact I. }
  split; [exact Hview|].
  exact (@dry_run_previews_viewed_revision insertionSorter exampleLibraries
           threeSnapshotCluster (DaemonSetObject webDaemonSet) ∅ 2 webMeta
           webDaemonSet threeSnapshots _ eq_refl eq_refl ltac:(discriminate) Hnodup
           ltac:(lia) Hview).
Defined.

